(** * HOLT CFROI model: a shallow embedding of [HOLT_CFROI.py]

    The Python class [HoltCFROIModel] is embedded as Rocq functions over a
    small model of the Python values the program manipulates:

    - Python [int] is [Z]; Python [float] is IEEE 754 binary64, taken from
      the standard library's [spec_float] at precision 53 and [emax] 1024;
    - exceptions are an explicit [result] type; the two [try]/[except]
      blocks of the source are handlers on it;
    - the calls to the external solver [npf.irr] and to [print] are recorded
      in an event trace, so that "the solver is not invoked" is a statement
      about the trace;
    - [company_data] is a finite map from field names to values.

    Three library routines are not part of the repository and are taken as
    parameters of the development: [npf.irr], the C library power function
    behind [float.__pow__], and the parsing of a string by [int(...)].

    Values are ints, floats, strings and [None]; a [bool] behaves as the
    int it is.  Lists and strings are unbounded: the model has no
    [MemoryError], a loop over [range(n)] always ends. *)

From Stdlib Require Import ZArith Bool Lia.
From Stdlib Require Import Floats.SpecFloat.
From stdpp Require Import gmap strings list.

Local Open Scope Z_scope.

(** ** Exceptions and the error monad *)

(** The exceptions the program can meet, all below [Exception];
    [LibraryError] stands for whatever the solver raises. *)
Inductive exn : Type :=
| TypeError
| ValueError
| OverflowError
| ZeroDivisionError
| IndexError
| KeyError (key : string)
| LibraryError (code : Z).

Inductive result (A : Type) : Type :=
| Ok (a : A)
| Raise (e : exn).

Arguments Ok {A} a.
Arguments Raise {A} e.

Definition rbind {A B : Type} (m : result A) (k : A -> result B) : result B :=
  match m with
  | Ok a => k a
  | Raise e => Raise e
  end.

Notation "'let*' x ':=' m 'in' k" := (rbind m (fun x => k))
  (at level 10, x name, m at level 100, k at level 200).

(** ** Python floats: IEEE 754 binary64 *)

Module B64.

Definition prec : Z := 53.
Definition emax : Z := 1024.

Definition add : spec_float -> spec_float -> spec_float := SFadd prec emax.
Definition sub : spec_float -> spec_float -> spec_float := SFsub prec emax.
Definition mul : spec_float -> spec_float -> spec_float := SFmul prec emax.
Definition div : spec_float -> spec_float -> spec_float := SFdiv prec emax.
Definition opp : spec_float -> spec_float := SFopp.
Definition ltb : spec_float -> spec_float -> bool := SFltb.
Definition leb : spec_float -> spec_float -> bool := SFleb.

Definition zero : spec_float := S754_zero false.

Definition is_nan (x : spec_float) : bool :=
  match x with S754_nan => true | _ => false end.

Definition is_zero (x : spec_float) : bool :=
  match x with S754_zero _ => true | _ => false end.

Definition is_finite (x : spec_float) : bool :=
  match x with S754_zero _ | S754_finite _ _ _ => true | _ => false end.

(** The sign bit: set on negative numbers and on [-0.0]. *)
Definition signbit (x : spec_float) : bool :=
  match x with
  | S754_zero s | S754_infinity s | S754_finite s _ _ => s
  | S754_nan => false
  end.

(** A decimal literal [num / den] denotes the binary64 number closest to
    it; [nearest m e num den] checks that [m * 2^e] (with [e < 0], [m] on
    53 bits) is within half a unit in the last place of [num / den]. *)
Definition nearest (m : positive) (e : Z) (num den : Z) : bool :=
  (Z.pos (digits2_pos m) =? prec) && (e <? 0) &&
  (2 * Z.abs (Z.pos m * den - num * 2 ^ (- e)) <=? den).

(** The float literals of the source. *)
Definition lit_0_7 : spec_float := S754_finite false 6305039478318694 (-53).
Definition lit_0_1 : spec_float := S754_finite false 7205759403792794 (-56).
Definition lit_0_04 : spec_float := S754_finite false 5764607523034235 (-57).
Definition lit_0_08 : spec_float := S754_finite false 5764607523034235 (-56).
Definition lit_0_02 : spec_float := S754_finite false 5764607523034235 (-58).
Definition lit_1_0 : spec_float := S754_finite false 4503599627370496 (-52).

(** [float(n)] for a Python int: round to nearest, ties to even;
    [OverflowError] when the rounded magnitude exceeds the largest
    finite float. *)
Definition of_Z (n : Z) : result spec_float :=
  match binary_normalize prec emax n 0 false with
  | S754_infinity _ => Raise OverflowError
  | x => Ok x
  end.

(** [int(x)] for a float: truncation toward zero. *)
Definition trunc (x : spec_float) : result Z :=
  match x with
  | S754_zero _ => Ok 0
  | S754_infinity _ => Raise OverflowError
  | S754_nan => Raise ValueError
  | S754_finite s m e => Ok (cond_Zopp s (Z.shiftl (Z.pos m) e))
  end.

(** Exact comparison of a float with an int, as the rich comparison of
    floats does it: no conversion of the int, no rounding. *)
Definition compare_Z (x : spec_float) (n : Z) : option comparison :=
  match x with
  | S754_nan => None
  | S754_infinity s => Some (if s then Lt else Gt)
  | S754_zero _ => Some (0 ?= n)
  | S754_finite s m e =>
      if 0 <=? e
      then Some (cond_Zopp s (Z.pos m * 2 ^ e) ?= n)
      else Some (cond_Zopp s (Z.pos m) ?= n * 2 ^ (- e))
  end.

(** True division of two Python ints, [a / b] with [b <> 0]: the
    correctly rounded quotient.  The quotient is computed on at least 55
    bits and a sticky bit records a non-zero remainder. *)
Definition div_Z (a b : Z) : result spec_float :=
  if b =? 0 then Raise ZeroDivisionError
  else
    let neg := xorb (a <? 0) (b <? 0) in
    if a =? 0 then Ok (S754_zero neg)
    else
      let A := Z.abs a in
      let B := Z.abs b in
      let k := Z.max 0 (Z.log2 B - Z.log2 A + 56) in
      let q := (A * 2 ^ k) / B in
      let r := (A * 2 ^ k) mod B in
      let m := 2 * q + (if r =? 0 then 0 else 1) in
      match binary_normalize prec emax (cond_Zopp neg m) (- k - 1) false with
      | S754_infinity _ => Raise OverflowError
      | x => Ok x
      end.

End B64.

(** ** Python values and operators *)

Inductive value : Type :=
| VInt (n : Z)
| VFloat (x : spec_float)
| VStr (s : string)
| VNone.

(** [isinstance(v, (int, float))] *)
Definition is_number (v : value) : bool :=
  match v with VInt _ | VFloat _ => true | _ => false end.

(** The conversion of a numeric operand to a C double that the float
    operators apply to both operands. *)
Definition to_float (v : value) : result spec_float :=
  match v with
  | VInt n => B64.of_Z n
  | VFloat x => Ok x
  | _ => Raise TypeError
  end.

(** The float operators: defined on two numbers, both converted first. *)
Definition float_op (f : spec_float -> spec_float -> result value)
    (a b : value) : result value :=
  if is_number a && is_number b then
    let* x := to_float a in
    let* y := to_float b in
    f x y
  else Raise TypeError.

(** [s * n] for a string: [n] copies, none when [n <= 0]. *)
Definition str_repeat (s : string) (n : Z) : string :=
  Nat.iter (Z.to_nat n) (String.append s) EmptyString.

Definition py_neg (a : value) : result value :=
  match a with
  | VInt n => Ok (VInt (- n))
  | VFloat x => Ok (VFloat (B64.opp x))
  | _ => Raise TypeError
  end.

Definition py_add (a b : value) : result value :=
  match a, b with
  | VInt m, VInt n => Ok (VInt (m + n))
  | VStr s, VStr t => Ok (VStr (String.append s t))
  | _, _ => float_op (fun x y => Ok (VFloat (B64.add x y))) a b
  end.

Definition py_sub (a b : value) : result value :=
  match a, b with
  | VInt m, VInt n => Ok (VInt (m - n))
  | _, _ => float_op (fun x y => Ok (VFloat (B64.sub x y))) a b
  end.

Definition py_mul (a b : value) : result value :=
  match a, b with
  | VInt m, VInt n => Ok (VInt (m * n))
  | VStr s, VInt n | VInt n, VStr s => Ok (VStr (str_repeat s n))
  | _, _ => float_op (fun x y => Ok (VFloat (B64.mul x y))) a b
  end.

(** [a / b]: true division.  Two ints give the correctly rounded quotient;
    otherwise both operands are converted and a zero divisor is refused. *)
Definition py_truediv (a b : value) : result value :=
  match a, b with
  | VInt m, VInt n =>
      let* q := B64.div_Z m n in Ok (VFloat q)
  | _, _ =>
      float_op (fun x y => if B64.is_zero y then Raise ZeroDivisionError
                           else Ok (VFloat (B64.div x y))) a b
  end.

(** Ordering of two values; [None] is the unordered outcome of a
    comparison with a NaN, on which every ordering test is false. *)
Definition py_compare (a b : value) : result (option comparison) :=
  match a, b with
  | VInt m, VInt n => Ok (Some (m ?= n))
  | VFloat x, VFloat y => Ok (SFcompare x y)
  | VFloat x, VInt n => Ok (B64.compare_Z x n)
  | VInt n, VFloat x => Ok (option_map CompOpp (B64.compare_Z x n))
  | VStr s, VStr t => Ok (Some (String.compare s t))
  | _, _ => Raise TypeError
  end.

Definition py_le (a b : value) : result bool :=
  let* c := py_compare a b in
  Ok (match c with Some Lt | Some Eq => true | _ => false end).

Definition py_gt (a b : value) : result bool :=
  let* c := py_compare a b in
  Ok (match c with Some Gt => true | _ => false end).

(** [a or b] on two tests: [b] is not evaluated when [a] is true. *)
Definition py_or (a : result bool) (b : result bool) : result bool :=
  let* x := a in if x then Ok true else b.

(** [range(n)] *)
Definition py_range (n : Z) : list Z :=
  List.map Z.of_nat (List.seq 0 (Z.to_nat n)).

(** [l[-1] += v] on a list: read the last element, add, store it back;
    [IndexError] on an empty list. *)
Definition iadd_last (l : list value) (v : value) : result (list value) :=
  match length l with
  | O => Raise IndexError
  | S i =>
      match l !! i with
      | Some x => let* y := py_add x v in Ok (<[i := y]> l)
      | None => Raise IndexError
      end
  end.

(** [pd.isna(x)] on a float *)
Definition isna (x : spec_float) : bool := B64.is_nan x.

(** [max(x, y)] on two floats: the first argument unless the second is
    strictly greater. *)
Definition py_max (x y : spec_float) : spec_float :=
  if B64.ltb x y then y else x.

(** ** Effects: the trace of solver calls and printed diagnostics *)

Inductive event : Type :=
| IrrCall (cash_flows : list value)
| Print (msg : string) (e : exn).

Definition M (A : Type) : Type := (result A * list event)%type.

Definition ret {A : Type} (a : A) : M A := (Ok a, []).

Definition lift {A : Type} (r : result A) : M A := (r, []).

Definition mbind' {A B : Type} (m : M A) (k : A -> M B) : M B :=
  match m with
  | (Ok a, t) => let (r, t') := k a in (r, t ++ t')
  | (Raise e, t) => (Raise e, t)
  end.

Notation "'do' x '<-' m ';' k" := (mbind' m (fun x => k))
  (at level 10, x name, m at level 100, k at level 200).

(** [try: body except Exception as e: handler e] *)
Definition try_except {A : Type} (body : M A) (handler : exn -> M A) : M A :=
  match body with
  | (Ok a, t) => (Ok a, t)
  | (Raise e, t) => let (r, t') := handler e in (r, t ++ t')
  end.

Definition print (msg : string) (e : exn) : M unit := (Ok tt, [Print msg e]).

(** A computation that ends on an exception. *)
Definition fails {A : Type} (m : M A) : Prop :=
  exists e t, m = (Raise e, t).

Definition solver_calls (t : list event) : list (list value) :=
  omap (fun ev => match ev with IrrCall c => Some c | Print _ _ => None end) t.

(** ** The model class

    [HoltCFROIModel.__init__] sets the one attribute of an instance. *)

Record HoltCFROIModel : Type := { inflation_rate : value }.

Definition init : HoltCFROIModel := {| inflation_rate := VFloat B64.lit_0_02 |}.

(** The dictionary [run_valuation] returns, with its five fixed keys. *)
Record ValuationResult : Type := {
  cfroi : value;
  economic_profit : value;
  gross_investment : value;
  gross_cash_flow : value;
  asset_life : value
}.

Definition all_zero : ValuationResult :=
  {| cfroi := VFloat B64.zero;
     economic_profit := VFloat B64.zero;
     gross_investment := VFloat B64.zero;
     gross_cash_flow := VFloat B64.zero;
     asset_life := VFloat B64.zero |}.

(** [d[k]] and [d.get(k, dflt)] on a dictionary *)
Definition getitem (d : gmap string value) (k : string) : result value :=
  match d !! k with
  | Some v => Ok v
  | None => Raise (KeyError k)
  end.

Definition get (d : gmap string value) (k : string) (dflt : value) : value :=
  default dflt (d !! k).

(** Default values of the optional parameters and fields. *)
Definition default_inflation_adjustment : value := VFloat B64.lit_1_0.
Definition default_fade_rate : value := VFloat B64.lit_0_04.
Definition default_cost_of_capital : value := VFloat B64.lit_0_08.

(** The fields [run_valuation] reads with [company_data[...]]. *)
Definition required_fields : list string :=
  ["gross_assets"; "accumulated_depreciation"; "net_income";
   "depreciation"; "interest_expense"; "rent_expense"].

(** ** Stand-ins for the library routines

    Used to run the model on concrete inputs: a solver that answers
    a fixed outcome, a solver for two cash flows, a power routine by
    repeated multiplication for non-negative integral exponents, and a
    string parser that refuses every string. *)

Definition const_irr (outcome : result spec_float) (cash_flows : list value)
    : result spec_float := outcome.

(** A solver for streams of two cash flows [v0; v1]: the rate [r] with
    [v0 + v1 / (1 + r) = 0], that is [- v1 / v0 - 1], computed in binary64;
    a NaN on any other stream. *)
Definition two_flow_irr (cash_flows : list value) : result spec_float :=
  match cash_flows with
  | [v0; v1] =>
      let* x0 := to_float v0 in
      let* x1 := to_float v1 in
      Ok (B64.sub (B64.div (B64.opp x1) x0) B64.lit_1_0)
  | _ => Ok S754_nan
  end.

Definition iter_pow (x y : spec_float) : result spec_float :=
  let* n := B64.trunc y in
  match Nat.iter (Z.to_nat n) (B64.mul x) B64.lit_1_0 with
  | S754_infinity _ => Raise OverflowError
  | z => Ok z
  end.

Definition no_int_of_str (s : string) : result Z := Raise ValueError.

(** The example record of the source (lines 133 to 142). *)
Definition company_data : gmap string value :=
  list_to_map
    [("gross_assets", VInt 10000000);
     ("accumulated_depreciation", VInt 2000000);
     ("net_income", VInt 1500000);
     ("depreciation", VInt 500000);
     ("interest_expense", VInt 300000);
     ("rent_expense", VInt 200000);
     ("cost_of_capital", VFloat B64.lit_0_08);
     ("fade_rate", VFloat B64.lit_0_04)].

(** The same company with no depreciation charge, no income, no interest
    and no rent, under a cost of capital of zero. *)
Definition idle_company_data : gmap string value :=
  list_to_map
    [("gross_assets", VInt 10000000);
     ("accumulated_depreciation", VInt 2000000);
     ("net_income", VInt 0);
     ("depreciation", VInt 0);
     ("interest_expense", VInt 0);
     ("rent_expense", VInt 0);
     ("cost_of_capital", VInt 0)].

Section Model.

(** [npf.irr]: a rate, possibly NaN or infinite, or an exception. *)
Variable irr : list value -> result spec_float.

(** [float.__pow__] on two doubles: the C library's [pow], with
    [OverflowError] on a result out of range and [ZeroDivisionError] on
    a zero base with a negative exponent. *)
Variable float_pow : spec_float -> spec_float -> result spec_float.

(** [int(s)] on a string. *)
Variable int_of_str : string -> result Z.

Definition call_irr (cash_flows : list value) : M spec_float :=
  (irr cash_flows, [IrrCall cash_flows]).

(** [a ** b]: exact on two ints with a non-negative exponent, the float
    power otherwise. *)
Definition py_pow (a b : value) : result value :=
  let fpow := fun x y => let* z := float_pow x y in Ok (VFloat z) in
  match a, b with
  | VInt m, VInt n => if 0 <=? n then Ok (VInt (m ^ n)) else float_op fpow a b
  | _, _ => float_op fpow a b
  end.

(** [int(a)] *)
Definition py_int (a : value) : result Z :=
  match a with
  | VInt n => Ok n
  | VFloat x => B64.trunc x
  | VStr s => int_of_str s
  | VNone => Raise TypeError
  end.

Definition calculate_gross_investment (self : HoltCFROIModel)
    (gross_assets accumulated_depreciation inflation_adjustment : value)
    : result value :=
  let* net := py_sub gross_assets accumulated_depreciation in
  py_mul net inflation_adjustment.

Definition calculate_gross_cash_flow (self : HoltCFROIModel)
    (net_income depreciation interest_expense rent_expense : value)
    : result value :=
  let* s1 := py_add net_income depreciation in
  let* after_tax := py_mul interest_expense (VFloat B64.lit_0_7) in
  let* s2 := py_add s1 after_tax in
  py_add s2 rent_expense.

Definition calculate_asset_life (self : HoltCFROIModel)
    (gross_assets depreciation : value) : result value :=
  let* positive := py_gt depreciation (VInt 0) in
  if positive then py_truediv gross_assets depreciation else Ok (VInt 0).

(** The [for year in range(...)] loop of [calculate_cfroi]: one projected
    cash flow appended per year. *)
Fixpoint project (gross_cash_flow fade_rate : value) (years : list Z)
    (cash_flows : list value) : result (list value) :=
  match years with
  | [] => Ok cash_flows
  | year :: rest =>
      let* base := py_sub (VInt 1) fade_rate in
      let* decay := py_pow base (VInt year) in
      let* projected_cf := py_mul gross_cash_flow decay in
      project gross_cash_flow fade_rate rest (cash_flows ++ [projected_cf])
  end.

(** The statements of the [try] block up to the call of the solver: the
    list [cash_flows] as it stands when [npf.irr] is called. *)
Definition build_cash_flows
    (gross_cash_flow gross_investment asset_life fade_rate : value)
    : result (list value) :=
  let* outlay := py_neg gross_investment in
  let* n := py_int asset_life in
  let* cash_flows := project gross_cash_flow fade_rate (py_range n) [outlay] in
  let* salvage_value := py_mul gross_investment (VFloat B64.lit_0_1) in
  iadd_last cash_flows salvage_value.

(** The test of line 35:
    [asset_life <= 0 or gross_investment <= 0 or gross_cash_flow <= 0]. *)
Definition degenerate (gross_cash_flow gross_investment asset_life : value)
    : result bool :=
  py_or (py_or (py_le asset_life (VInt 0))
               (py_le gross_investment (VInt 0)))
        (py_le gross_cash_flow (VInt 0)).

(** The body of the [try] block of [calculate_cfroi]. *)
Definition calculate_cfroi_body
    (gross_cash_flow gross_investment asset_life fade_rate : value)
    : M value :=
  do cash_flows <-
    lift (build_cash_flows gross_cash_flow gross_investment
                           asset_life fade_rate);
  do rate <- call_irr cash_flows;
  if isna rate then ret (VFloat B64.zero)
  else ret (VFloat (py_max rate B64.zero)).

Definition calculate_cfroi (self : HoltCFROIModel)
    (gross_cash_flow gross_investment asset_life fade_rate : value)
    : M value :=
  do stop <- lift (degenerate gross_cash_flow gross_investment asset_life);
  if (stop : bool) then ret (VFloat B64.zero)
  else
    try_except
      (calculate_cfroi_body gross_cash_flow gross_investment
                            asset_life fade_rate)
      (fun e =>
         do _ <- print "Error calculating CFROI: " e;
         ret (VFloat B64.zero)).

Definition calculate_economic_profit (self : HoltCFROIModel)
    (cfroi cost_of_capital gross_investment : value) : result value :=
  if negb (is_number cfroi) || negb (is_number cost_of_capital)
  then Ok (VFloat B64.zero)
  else
    let* spread := py_sub cfroi cost_of_capital in
    py_mul spread gross_investment.

(** The body of the [try] block of [run_valuation]. *)
Definition run_valuation_body (self : HoltCFROIModel)
    (company_data : gmap string value) : M ValuationResult :=
  do gross_assets <- lift (getitem company_data "gross_assets");
  do accumulated_depreciation <-
    lift (getitem company_data "accumulated_depreciation");
  do gross_investment <-
    lift (calculate_gross_investment self gross_assets
            accumulated_depreciation
            (get company_data "inflation_adjustment"
                 default_inflation_adjustment));
  do net_income <- lift (getitem company_data "net_income");
  do depreciation <- lift (getitem company_data "depreciation");
  do interest_expense <- lift (getitem company_data "interest_expense");
  do rent_expense <- lift (getitem company_data "rent_expense");
  do gross_cash_flow <-
    lift (calculate_gross_cash_flow self net_income depreciation
            interest_expense rent_expense);
  do gross_assets' <- lift (getitem company_data "gross_assets");
  do depreciation' <- lift (getitem company_data "depreciation");
  do asset_life <-
    lift (calculate_asset_life self gross_assets' depreciation');
  do cfroi <-
    calculate_cfroi self gross_cash_flow gross_investment asset_life
      (get company_data "fade_rate" default_fade_rate);
  do economic_profit <-
    lift (calculate_economic_profit self cfroi
            (get company_data "cost_of_capital" default_cost_of_capital)
            gross_investment);
  ret {| cfroi := cfroi;
         economic_profit := economic_profit;
         gross_investment := gross_investment;
         gross_cash_flow := gross_cash_flow;
         asset_life := asset_life |}.

Definition run_valuation (self : HoltCFROIModel)
    (company_data : gmap string value) : M ValuationResult :=
  try_except
    (run_valuation_body self company_data)
    (fun e =>
       do _ <- print "Error in valuation calculation: " e;
       ret all_zero).

(** *** The statements of the specification

    Definitions that follow the specification's wording, to be compared
    with the code above. *)


(** [grossCashFlow * (1 - fadeRate)^t] *)
Definition spec_projected_flow (grossCashFlow fadeRate : value) (t : Z)
    : result value :=
  let* base := py_sub (VInt 1) fadeRate in
  let* decay := py_pow base (VInt t) in
  py_mul grossCashFlow decay.

Fixpoint mapM {A B : Type} (f : A -> result B) (l : list A)
    : result (list B) :=
  match l with
  | [] => Ok []
  | a :: l' =>
      let* b := f a in
      let* bs := mapM f l' in
      Ok (b :: bs)
  end.







(** [(cfroi - costOfCapital) * grossInvestment] *)
Definition spec_economic_profit (cfroi costOfCapital grossInvestment : value)
    : result value :=
  let* spread := py_sub cfroi costOfCapital in
  py_mul spread grossInvestment.

(** The rate [calculate_cfroi] answers from the outcome of the solver:
    [0.0] on an error, on a NaN and on a negative rate, the rate itself
    otherwise. *)
Definition spec_failure_policy (outcome : result spec_float) : spec_float :=
  match outcome with
  | Raise _ => B64.zero
  | Ok rate =>
      if B64.is_nan rate then B64.zero
      else if B64.ltb rate B64.zero then B64.zero
      else rate
  end.

(** Modelled from the spec: the contract of the external rate-of-return
    solver, which is not part of the repository: it returns a real
    (finite) rate, or an undefined (NaN) result, or fails. *)
Definition solver_contract : Prop :=
  forall cash_flows rate,
    irr cash_flows = Ok rate ->
    B64.is_nan rate = true \/ B64.is_finite rate = true.

(** *** Auxiliary readings of [run_valuation]

    The fields [run_valuation] reads, required and optional, and the
    statements of its [try] block that precede the call of
    [calculate_cfroi], in the order of the source: the gross investment,
    the gross cash flow and the asset life, or the first exception. *)

Definition read_fields : list string :=
  required_fields ++ ["inflation_adjustment"; "fade_rate"; "cost_of_capital"].

Definition valuation_inputs (self : HoltCFROIModel)
    (company_data : gmap string value) : result (value * value * value) :=
  let* gross_assets := getitem company_data "gross_assets" in
  let* accumulated_depreciation :=
    getitem company_data "accumulated_depreciation" in
  let* gross_investment :=
    calculate_gross_investment self gross_assets accumulated_depreciation
      (get company_data "inflation_adjustment" default_inflation_adjustment) in
  let* net_income := getitem company_data "net_income" in
  let* depreciation := getitem company_data "depreciation" in
  let* interest_expense := getitem company_data "interest_expense" in
  let* rent_expense := getitem company_data "rent_expense" in
  let* gross_cash_flow :=
    calculate_gross_cash_flow self net_income depreciation interest_expense
      rent_expense in
  let* gross_assets' := getitem company_data "gross_assets" in
  let* depreciation' := getitem company_data "depreciation" in
  let* asset_life := calculate_asset_life self gross_assets' depreciation' in
  Ok (gross_investment, gross_cash_flow, asset_life).

(** *** Auxiliary reading of the rounding shift

    The record [mrs] is what remains of [x] after [j] bits were shifted
    out: its significand is the quotient of [x] by [2^j], its round bit
    tells whether the remainder reaches half of [2^j], its sticky bit
    whether the remainder is neither zero nor that half. *)


(** *** Facts on rounding *)

Lemma iter_pos_invariant {A : Type} (P : A -> Prop) (f : A -> A) :
  (forall x, P x -> P (f x)) -> forall p x, P x -> P (SpecFloat.iter_pos f p x).
Proof.
  intros Hf p. induction p as [p IH|p IH|]; intros x Hx; simpl; auto.
Qed.

Lemma shr_1_m (mrs : shr_record) :
  0 <= shr_m mrs -> shr_m (shr_1 mrs) = shr_m mrs / 2.
Proof.
  destruct mrs as [m r s]; simpl. intros Hm.
  destruct m as [|[p|p|]|p]; simpl; try reflexivity; try lia.
  - apply Z.div_unique with (r := 1); lia.
  - apply Z.div_unique with (r := 0); lia.
Qed.

Lemma shr_1_nonneg (mrs : shr_record) :
  0 <= shr_m mrs -> 0 <= shr_m (shr_1 mrs).
Proof.
  intros H. rewrite shr_1_m by exact H. apply Z.div_pos; lia.
Qed.

Lemma iter_shr_1_m (p : positive) :
  forall mrs, 0 <= shr_m mrs ->
    shr_m (SpecFloat.iter_pos shr_1 p mrs) = shr_m mrs / 2 ^ Z.pos p.
Proof.
  assert (Hnn : forall q x,
             0 <= shr_m x -> 0 <= shr_m (SpecFloat.iter_pos shr_1 q x)).
  { intros q x. apply (iter_pos_invariant (fun y => 0 <= shr_m y)).
    apply shr_1_nonneg. }
  induction p as [p IH|p IH|]; intros mrs Hm; simpl.
  - rewrite IH by (apply Hnn, shr_1_nonneg, Hm).
    rewrite IH by (apply shr_1_nonneg, Hm).
    rewrite shr_1_m by exact Hm.
    rewrite !Z.div_div by lia.
    f_equal.
    replace (Z.pos p~1) with (Z.succ (Z.pos p + Z.pos p)) by lia.
    rewrite Z.pow_succ_r, Z.pow_add_r by lia. ring.
  - rewrite IH by (apply Hnn, Hm). rewrite IH by exact Hm.
    rewrite Z.div_div by lia.
    f_equal.
    replace (Z.pos p~0) with (Z.pos p + Z.pos p) by lia.
    rewrite Z.pow_add_r by lia. reflexivity.
  - rewrite shr_1_m by exact Hm. reflexivity.
Qed.

Lemma digits2_pos_bounds (p : positive) :
  2 ^ (Z.pos (digits2_pos p) - 1) <= Z.pos p < 2 ^ Z.pos (digits2_pos p).
Proof.
  induction p as [p IH|p IH|]; simpl digits2_pos.
  - rewrite Pos2Z.inj_succ.
    replace (Z.succ (Z.pos (digits2_pos p)) - 1)
      with (Z.succ (Z.pos (digits2_pos p) - 1)) by lia.
    rewrite !Z.pow_succ_r by lia.
    change (Z.pos p~1) with (2 * Z.pos p + 1). lia.
  - rewrite Pos2Z.inj_succ.
    replace (Z.succ (Z.pos (digits2_pos p)) - 1)
      with (Z.succ (Z.pos (digits2_pos p) - 1)) by lia.
    rewrite !Z.pow_succ_r by lia.
    change (Z.pos p~0) with (2 * Z.pos p). lia.
  - simpl. lia.
Qed.

Lemma shr_m_of_loc (m : Z) (l : location) : shr_m (shr_record_of_loc m l) = m.
Proof. destruct l as [|[]]; reflexivity. Qed.

Lemma round_nearest_even_ge (m : Z) (l : location) :
  m <= round_nearest_even m l.
Proof.
  destruct l as [|[]]; simpl; try lia. destruct (Z.even m); lia.
Qed.

Lemma shr_nonneg (mrs : shr_record) (e n : Z) :
  0 <= shr_m mrs -> 0 <= shr_m (fst (shr mrs e n)).
Proof.
  intros H. destruct n as [|p|p]; simpl; auto.
  apply (iter_pos_invariant (fun y => 0 <= shr_m y)); auto using shr_1_nonneg.
Qed.

Lemma shr_exponent (mrs : shr_record) (e n : Z) :
  snd (shr mrs e n) = if 0 <? n then e + n else e.
Proof. destruct n; reflexivity. Qed.

Lemma shr_positive (mrs : shr_record) (e n : Z) :
  0 < shr_m mrs -> n < Zdigits2 (shr_m mrs) -> 0 < shr_m (fst (shr mrs e n)).
Proof.
  intros Hm Hn. destruct n as [|p|p]; simpl; auto.
  rewrite iter_shr_1_m by lia.
  destruct (shr_m mrs) as [|q|q]; try lia. simpl in Hn.
  pose proof (digits2_pos_bounds q) as [Hlo _].
  apply Z.div_str_pos. split; [apply Z.pow_pos_nonneg; lia|].
  etrans; [|exact Hlo]. apply Z.pow_le_mono_r; lia.
Qed.

(** The result of rounding a non-negative significand carries the
    requested sign and is never a NaN. *)
Lemma binary_round_aux_sign (sx : bool) (mx ex : Z) (lx : location) :
  0 <= mx ->
  match binary_round_aux B64.prec B64.emax sx mx ex lx with
  | S754_zero s | S754_infinity s | S754_finite s _ _ => s = sx
  | S754_nan => False
  end.
Proof.
  intros Hm. unfold binary_round_aux, shr_fexp.
  destruct (shr (shr_record_of_loc mx lx) ex _) as [mrs' e'] eqn:E1.
  destruct (shr (shr_record_of_loc _ loc_Exact) e' _) as [mrs'' e''] eqn:E2.
  assert (H1 : 0 <= shr_m mrs').
  { change mrs' with (fst (mrs', e')). rewrite <- E1.
    apply shr_nonneg. rewrite shr_m_of_loc. exact Hm. }
  assert (H2 : 0 <= shr_m mrs'').
  { change mrs'' with (fst (mrs'', e'')). rewrite <- E2.
    apply shr_nonneg. rewrite shr_m_of_loc.
    pose proof (round_nearest_even_ge (shr_m mrs')
                  (loc_of_shr_record mrs')).
    lia. }
  destruct (shr_m mrs'') as [|q|q]; try lia; [reflexivity|].
  destruct (_ <=? _); reflexivity.
Qed.

(** Rounding does not flush to zero a number of magnitude at least
    [2 ^ emin]. *)
Lemma binary_round_aux_nonzero (sx : bool) (mx ex : Z) (lx : location) :
  0 < mx -> emin B64.prec B64.emax < ex + Zdigits2 mx ->
  B64.is_zero (binary_round_aux B64.prec B64.emax sx mx ex lx) = false.
Proof.
  intros Hm Hex. unfold binary_round_aux, shr_fexp.
  set (n1 := fexp B64.prec B64.emax (Zdigits2 mx + ex) - ex).
  destruct (shr (shr_record_of_loc mx lx) ex n1) as [mrs' e'] eqn:E1.
  set (m2 := round_nearest_even (shr_m mrs') (loc_of_shr_record mrs')).
  set (n2 := fexp B64.prec B64.emax (Zdigits2 m2 + e') - e').
  destruct (shr (shr_record_of_loc m2 loc_Exact) e' n2) as [mrs'' e''] eqn:E2.
  assert (Hd : forall m, 0 < m -> 0 < Zdigits2 m).
  { intros [|q|q] Hq; simpl; lia. }
  assert (H1 : 0 < shr_m mrs').
  { change mrs' with (fst (mrs', e')). rewrite <- E1.
    apply shr_positive; rewrite shr_m_of_loc; [exact Hm|].
    unfold n1, fexp, emin in *. unfold B64.prec, B64.emax in *. lia. }
  assert (He' : emin B64.prec B64.emax <= e').
  { change e' with (snd (mrs', e')). rewrite <- E1, shr_exponent.
    unfold n1, fexp, emin in *. unfold B64.prec, B64.emax in *.
    destruct (0 <? _) eqn:E; [lia|]. apply Z.ltb_ge in E. lia. }
  assert (Hm2 : 0 < m2).
  { pose proof (round_nearest_even_ge (shr_m mrs') (loc_of_shr_record mrs')).
    unfold m2. lia. }
  assert (H2 : 0 < shr_m mrs'').
  { change mrs'' with (fst (mrs'', e'')). rewrite <- E2.
    apply shr_positive; rewrite shr_m_of_loc; [exact Hm2|].
    specialize (Hd m2 Hm2).
    unfold n2, fexp, emin in *. unfold B64.prec, B64.emax in *. lia. }
  destruct (shr_m mrs'') as [|q|q]; try lia.
  destruct (_ <=? _); reflexivity.
Qed.

Lemma shl_align_digits (m : positive) (e e' : Z) :
  0 < Z.pos (fst (shl_align m e e')) /\
  (snd (shl_align m e e') = e \/ snd (shl_align m e e') = e').
Proof.
  unfold shl_align. destruct (e' - e); simpl; split; auto; lia.
Qed.

Lemma binary_round_int (sx : bool) (p : positive) :
  match binary_round B64.prec B64.emax sx p 0 with
  | S754_infinity s | S754_finite s _ _ => s = sx
  | S754_zero _ | S754_nan => False
  end.
Proof.
  unfold binary_round.
  destruct (shl_align p 0 _) as [mz ez] eqn:E.
  pose proof (binary_round_aux_sign sx (Z.pos mz) ez loc_Exact ltac:(lia))
    as Hs.
  pose proof (binary_round_aux_nonzero sx (Z.pos mz) ez loc_Exact ltac:(lia))
    as Hz.
  assert (Hez : emin B64.prec B64.emax < ez + Zdigits2 (Z.pos mz)).
  { pose proof (shl_align_digits p 0
                  (fexp B64.prec B64.emax (Z.pos (digits2_pos p) + 0)))
      as [_ H].
    rewrite E in H. simpl in H. simpl Zdigits2.
    unfold fexp, emin in *. unfold B64.prec, B64.emax in *. lia. }
  specialize (Hz Hez).
  destruct (binary_round_aux _ _ _ _ _ _); simpl in *; congruence.
Qed.

(** [float(n)], when it does not overflow, is a finite float of the sign
    of [n], and is a zero only for [n = 0]. *)
Lemma of_Z_sign (n : Z) (y : spec_float) :
  B64.of_Z n = Ok y ->
  B64.is_nan y = false /\ B64.is_finite y = true /\
  (0 < n -> B64.signbit y = false /\ B64.is_zero y = false) /\
  (n < 0 -> B64.signbit y = true /\ B64.is_zero y = false).
Proof.
  unfold B64.of_Z, binary_normalize.
  destruct n as [|p|p].
  - intros [= <-]. simpl. repeat split; lia.
  - pose proof (binary_round_int false p) as H.
    destruct (binary_round _ _ _ _ _) as [s|s| |s m e]; try done.
    intros [= <-]. simpl. subst s. repeat split; lia.
  - pose proof (binary_round_int true p) as H.
    destruct (binary_round _ _ _ _ _) as [s|s| |s m e]; try done.
    intros [= <-]. simpl. subst s. repeat split; lia.
Qed.

(** *** Exact roundings *)

Lemma Zdigits2_unique (m d : Z) :
  2 ^ (d - 1) <= m < 2 ^ d -> 0 < d -> Zdigits2 m = d.
Proof.
  intros [Hlo Hhi] Hd.
  assert (Hm : 0 < m).
  { pose proof (Z.pow_pos_nonneg 2 (d - 1) ltac:(lia) ltac:(lia)). lia. }
  destruct m as [|p|p]; try lia. simpl.
  pose proof (digits2_pos_bounds p) as [Hlo' Hhi'].
  destruct (Z.lt_trichotomy (Z.pos (digits2_pos p)) d) as [H|[H|H]];
    [|exact H|].
  - assert (2 ^ Z.pos (digits2_pos p) <= 2 ^ (d - 1))
      by (apply Z.pow_le_mono_r; lia).
    lia.
  - assert (2 ^ d <= 2 ^ (Z.pos (digits2_pos p) - 1))
      by (apply Z.pow_le_mono_r; lia).
    lia.
Qed.

Lemma shr_1_double (x : Z) :
  0 <= x ->
  shr_1 (Build_shr_record (2 * x) false false) = Build_shr_record x false false.
Proof. destruct x as [|p|p]; try lia; reflexivity. Qed.

(** Shifting out zero bits is exact. *)
Lemma iter_shr_1_exact (p : positive) :
  forall c, 0 <= c ->
    SpecFloat.iter_pos shr_1 p (Build_shr_record (2 ^ Z.pos p * c) false false)
    = Build_shr_record c false false.
Proof.
  induction p as [p IH|p IH|]; intros c Hc; cbn [SpecFloat.iter_pos].
  - replace (2 ^ Z.pos p~1 * c) with (2 * (2 ^ Z.pos p * (2 ^ Z.pos p * c))).
    + assert (H1 : 0 <= 2 ^ Z.pos p * c)
        by (apply Z.mul_nonneg_nonneg; [apply Z.pow_nonneg|]; lia).
      assert (H2 : 0 <= 2 ^ Z.pos p * (2 ^ Z.pos p * c))
        by (apply Z.mul_nonneg_nonneg; [apply Z.pow_nonneg|]; lia).
      rewrite shr_1_double by exact H2.
      rewrite IH by exact H1. apply IH, Hc.
    + replace (Z.pos p~1) with (Z.succ (Z.pos p + Z.pos p)) by lia.
      rewrite Z.pow_succ_r, Z.pow_add_r by lia. ring.
  - replace (2 ^ Z.pos p~0 * c) with (2 ^ Z.pos p * (2 ^ Z.pos p * c)).
    + assert (H1 : 0 <= 2 ^ Z.pos p * c)
        by (apply Z.mul_nonneg_nonneg; [apply Z.pow_nonneg|]; lia).
      rewrite IH by exact H1. apply IH, Hc.
    + replace (Z.pos p~0) with (Z.pos p + Z.pos p) by lia.
      rewrite Z.pow_add_r by lia. ring.
  - change (2 ^ 1) with 2. apply shr_1_double, Hc.
Qed.

Lemma shr_fexp_exact (c n ez : Z) :
  2 ^ 52 <= c < 2 ^ 53 -> 0 <= n ->
  emin B64.prec B64.emax <= ez + n ->
  shr_fexp B64.prec B64.emax (2 ^ n * c) ez loc_Exact
  = (Build_shr_record c false false, ez + n).
Proof.
  intros Hc Hn He. unfold shr_fexp.
  assert (Hd : Zdigits2 (2 ^ n * c) = 53 + n).
  { apply Zdigits2_unique; [|lia].
    replace (53 + n - 1) with (n + 52) by lia.
    replace (53 + n) with (n + 53) by lia.
    rewrite !Z.pow_add_r by lia.
    pose proof (Z.pow_pos_nonneg 2 n ltac:(lia) Hn). nia. }
  rewrite Hd.
  replace (fexp B64.prec B64.emax (53 + n + ez) - ez) with n
    by (unfold fexp, emin, B64.prec, B64.emax in *; lia).
  destruct n as [|p|p]; [| |lia].
  - simpl. rewrite Z.add_0_r. destruct c; reflexivity.
  - cbn [shr shr_record_of_loc]. rewrite iter_shr_1_exact by lia.
    reflexivity.
Qed.

(** Rounding a significand of 53 bits followed by zero bits keeps it. *)
Lemma binary_round_aux_exact (sx : bool) (c n ez : Z) :
  2 ^ 52 <= c < 2 ^ 53 -> 0 <= n ->
  emin B64.prec B64.emax <= ez + n <= B64.emax - B64.prec ->
  binary_round_aux B64.prec B64.emax sx (2 ^ n * c) ez loc_Exact
  = S754_finite sx (Z.to_pos c) (ez + n).
Proof.
  intros Hc Hn He. unfold binary_round_aux.
  rewrite (shr_fexp_exact c n ez) by tauto.
  cbn [shr_m loc_of_shr_record round_nearest_even].
  replace c with (2 ^ 0 * c) at 1 by (change (2 ^ 0) with 1; lia).
  rewrite (shr_fexp_exact c 0 (ez + n)) by lia.
  cbn [shr_m]. rewrite Z.add_0_r.
  destruct c as [|p|p]; try lia.
  rewrite (proj2 (Z.leb_le (ez + n) (B64.emax - B64.prec))) by lia.
  reflexivity.
Qed.

Lemma pos_iter_xO (mx d : positive) :
  Z.pos (Pos.iter xO mx d) = 2 ^ Z.pos d * Z.pos mx.
Proof.
  induction d as [|d IH] using Pos.peano_ind.
  - reflexivity.
  - rewrite Pos.iter_succ, Pos2Z.inj_succ, Z.pow_succ_r by lia.
    change (Z.pos (Pos.iter xO mx d)~0) with (2 * Z.pos (Pos.iter xO mx d)).
    rewrite IH. ring.
Qed.

Lemma Zdigits2_small (q : Z) :
  0 < q < 2 ^ 53 ->
  1 <= Zdigits2 q <= 53 /\ 2 ^ (Zdigits2 q - 1) <= q < 2 ^ Zdigits2 q.
Proof.
  intros [Hq Hq']. destruct q as [|p|p]; try lia. simpl Zdigits2.
  pose proof (digits2_pos_bounds p) as [Hlo Hhi].
  split; [|lia]. split; [lia|].
  destruct (Z_le_gt_dec (Z.pos (digits2_pos p)) 53) as [H|H]; [exact H|].
  assert (2 ^ 53 <= 2 ^ (Z.pos (digits2_pos p) - 1))
    by (apply Z.pow_le_mono_r; lia).
  lia.
Qed.

(** Rounding an integer below [2^53], however many zero bits follow it,
    is exact: the significand is the integer shifted to 53 bits. *)
Lemma binary_round_int_exact (sx : bool) (mx : positive) (q j : Z) :
  0 < q < 2 ^ 53 -> 0 <= j -> Z.pos mx = 2 ^ j * q ->
  binary_round B64.prec B64.emax sx mx (- j)
  = S754_finite sx (Z.to_pos (2 ^ (53 - Zdigits2 q) * q)) (Zdigits2 q - 53).
Proof.
  intros Hq Hj Hmx.
  destruct (Zdigits2_small q Hq) as [HD [Hlo Hhi]].
  set (D := Zdigits2 q) in *.
  assert (Hc : 2 ^ 52 <= 2 ^ (53 - D) * q < 2 ^ 53).
  { replace 52 with ((53 - D) + (D - 1)) at 1 by lia.
    replace 53 with ((53 - D) + D) at 4 by lia.
    rewrite !Z.pow_add_r by lia.
    pose proof (Z.pow_pos_nonneg 2 (53 - D) ltac:(lia) ltac:(lia)). nia. }
  assert (Hdm : Z.pos (digits2_pos mx) = D + j).
  { change (Z.pos (digits2_pos mx)) with (Zdigits2 (Z.pos mx)).
    rewrite Hmx. apply Zdigits2_unique; [|lia].
    replace (D + j - 1) with (j + (D - 1)) by lia.
    replace (D + j) with (j + D) by lia.
    rewrite !Z.pow_add_r by lia.
    pose proof (Z.pow_pos_nonneg 2 j ltac:(lia) Hj). nia. }
  unfold binary_round. rewrite Hdm.
  replace (fexp B64.prec B64.emax (D + j + - j)) with (D - 53)
    by (unfold fexp, emin, B64.prec, B64.emax; lia).
  unfold shl_align.
  destruct (D - 53 - - j) as [|n|d] eqn:E.
  - rewrite Hmx.
    replace (2 ^ j * q) with (2 ^ 0 * (2 ^ (53 - D) * q))
      by (replace j with (53 - D) by lia; change (2 ^ 0) with 1; lia).
    rewrite binary_round_aux_exact;
      [f_equal; lia | exact Hc | lia
      | unfold emin, B64.prec, B64.emax; lia].
  - rewrite Hmx.
    replace (2 ^ j * q) with (2 ^ Z.pos n * (2 ^ (53 - D) * q)).
    + rewrite binary_round_aux_exact;
        [f_equal; lia | exact Hc | lia
        | unfold emin, B64.prec, B64.emax; lia].
    + replace (2 ^ j) with (2 ^ Z.pos n * 2 ^ (53 - D)); [ring|].
      rewrite <- Z.pow_add_r by lia. f_equal. lia.
  - rewrite pos_iter_xO, Hmx.
    replace (2 ^ Z.pos d * (2 ^ j * q)) with (2 ^ 0 * (2 ^ (53 - D) * q)).
    + rewrite binary_round_aux_exact;
        [f_equal; lia | exact Hc | lia
        | unfold emin, B64.prec, B64.emax; lia].
    + change (2 ^ 0) with 1.
      replace (53 - D) with (Z.pos d + j) by lia.
      rewrite Z.pow_add_r by lia. ring.
Qed.

(** The float of an exact integer compares equal to it. *)
Lemma exact_compare (sx : bool) (q : Z) :
  0 < q < 2 ^ 53 ->
  B64.compare_Z
    (S754_finite sx (Z.to_pos (2 ^ (53 - Zdigits2 q) * q)) (Zdigits2 q - 53))
    (cond_Zopp sx q) = Some Eq.
Proof.
  intros Hq. destruct (Zdigits2_small q Hq) as [HD _].
  set (D := Zdigits2 q) in *.
  assert (Hp : 0 < 2 ^ (53 - D) * q).
  { pose proof (Z.pow_pos_nonneg 2 (53 - D) ltac:(lia) ltac:(lia)). nia. }
  unfold B64.compare_Z. rewrite Z2Pos.id by exact Hp.
  destruct (0 <=? D - 53) eqn:E.
  - apply Z.leb_le in E. replace (D - 53) with 0 by lia.
    replace (53 - D) with 0 by lia. change (2 ^ 0) with 1.
    f_equal. apply Z.compare_eq_iff. destruct sx; simpl; lia.
  - replace (- (D - 53)) with (53 - D) by lia.
    f_equal. apply Z.compare_eq_iff. destruct sx; simpl; lia.
Qed.

(** [float(n)] is exact below [2^53]. *)
Lemma of_Z_exact (n : Z) :
  0 < n < 2 ^ 53 ->
  B64.of_Z n
  = Ok (S754_finite false (Z.to_pos (2 ^ (53 - Zdigits2 n) * n))
          (Zdigits2 n - 53)).
Proof.
  intros Hn. unfold B64.of_Z, binary_normalize.
  destruct n as [|p|p] eqn:En; try lia.
  change (binary_round B64.prec B64.emax false p 0)
    with (binary_round B64.prec B64.emax false p (- 0)).
  rewrite (binary_round_int_exact false p (Z.pos p) 0)
    by (try lia; change (2 ^ 0) with 1; lia).
  reflexivity.
Qed.


(** *** Rounding to nearest *)









(** *** Facts on the operators *)




Lemma compare_Z_positive (y : spec_float) :
  B64.compare_Z y 0 = Some Gt ->
  B64.is_zero y = false /\ B64.is_nan y = false /\ B64.signbit y = false.
Proof.
  destruct y as [s|s| |s m e]; simpl; try discriminate.
  - destruct s; [discriminate|auto].
  - destruct s; [|auto].
    destruct (0 <=? e); simpl; intros [= H].
    apply Z.compare_gt_iff in H.
    pose proof (Z.pow_nonneg 2 e ltac:(lia)). nia.
Qed.

Lemma py_gt_zero_cases (v : value) :
  py_gt v (VInt 0) = Ok true ->
  (exists n, v = VInt n /\ 0 < n) \/
  (exists y, v = VFloat y /\ B64.is_zero y = false /\
             B64.is_nan y = false /\ B64.signbit y = false).
Proof.
  destruct v as [n|y|s|]; unfold py_gt; simpl; try discriminate.
  - destruct (n ?= 0) eqn:E; try discriminate. intros _. left.
    exists n. split; [reflexivity|]. apply Z.compare_gt_iff in E. lia.
  - destruct (B64.compare_Z y 0) as [[]|] eqn:E; try discriminate.
    intros _. right. exists y. split; [reflexivity|].
    apply compare_Z_positive, E.
Qed.



(** *** The scalar calculators *)


(** C8: on two numbers [calculate_economic_profit] is
    [(cfroi - costOfCapital) * grossInvestment]; when one of them is not
    a number it answers [0.0] and computes nothing.  The difference and
    the product are those of Python: exact on ints, the binary64
    subtraction and multiplication on floats, an int operand being
    converted first.  On (0.10, 0.08, 8000000), the two rates being the
    floats closest to 1/10 and 8/100, the result is [160000 + 2^-35]. *)
Theorem economic_profit_formula (self : HoltCFROIModel)
    (cfroi cost_of_capital gross_investment : value) :
  (is_number cfroi = true -> is_number cost_of_capital = true ->
   calculate_economic_profit self cfroi cost_of_capital gross_investment
   = spec_economic_profit cfroi cost_of_capital gross_investment)
  /\ (is_number cfroi = false \/ is_number cost_of_capital = false ->
      calculate_economic_profit self cfroi cost_of_capital gross_investment
      = Ok (VFloat B64.zero))
  /\ (forall c k g : Z,
        calculate_economic_profit self (VInt c) (VInt k) (VInt g)
        = Ok (VInt ((c - k) * g)))
  /\ (forall x y z : spec_float,
        calculate_economic_profit self (VFloat x) (VFloat y) (VFloat z)
        = Ok (VFloat (SFmul 53 1024 (SFsub 53 1024 x y) z)))
  /\ (forall (x y : spec_float) (g : Z),
        calculate_economic_profit self (VFloat x) (VFloat y) (VInt g)
        = match binary_normalize 53 1024 g 0 false with
          | S754_infinity _ => Raise OverflowError
          | z => Ok (VFloat (SFmul 53 1024 (SFsub 53 1024 x y) z))
          end)
  /\ (forall (x : spec_float) (k : Z) (z : spec_float),
        calculate_economic_profit self (VFloat x) (VInt k) (VFloat z)
        = match binary_normalize 53 1024 k 0 false with
          | S754_infinity _ => Raise OverflowError
          | y => Ok (VFloat (SFmul 53 1024 (SFsub 53 1024 x y) z))
          end)
  /\ (forall (c : Z) (y z : spec_float),
        calculate_economic_profit self (VInt c) (VFloat y) (VFloat z)
        = match binary_normalize 53 1024 c 0 false with
          | S754_infinity _ => Raise OverflowError
          | x => Ok (VFloat (SFmul 53 1024 (SFsub 53 1024 x y) z))
          end)
  /\ (forall (c k : Z) (z : spec_float),
        calculate_economic_profit self (VInt c) (VInt k) (VFloat z)
        = match binary_normalize 53 1024 (c - k) 0 false with
          | S754_infinity _ => Raise OverflowError
          | d => Ok (VFloat (SFmul 53 1024 d z))
          end)
  /\ (forall (x : spec_float) (k g : Z),
        calculate_economic_profit self (VFloat x) (VInt k) (VInt g)
        = match binary_normalize 53 1024 k 0 false with
          | S754_infinity _ => Raise OverflowError
          | y =>
              match binary_normalize 53 1024 g 0 false with
              | S754_infinity _ => Raise OverflowError
              | z => Ok (VFloat (SFmul 53 1024 (SFsub 53 1024 x y) z))
              end
          end)
  /\ (forall (c : Z) (y : spec_float) (g : Z),
        calculate_economic_profit self (VInt c) (VFloat y) (VInt g)
        = match binary_normalize 53 1024 c 0 false with
          | S754_infinity _ => Raise OverflowError
          | x =>
              match binary_normalize 53 1024 g 0 false with
              | S754_infinity _ => Raise OverflowError
              | z => Ok (VFloat (SFmul 53 1024 (SFsub 53 1024 x y) z))
              end
          end)
  /\ (calculate_economic_profit self
        (VFloat (S754_finite false 7205759403792794 (-56)))
        (VFloat (S754_finite false 5764607523034235 (-56)))
        (VInt 8000000)
      = Ok (VFloat (S754_finite false 5497558138880001 (-35)))
      /\ B64.nearest 7205759403792794 (-56) 1 10 = true
      /\ B64.nearest 5764607523034235 (-56) 8 100 = true
      /\ 5497558138880001 = 160000 * 2 ^ 35 + 1)
  /\ (forall g : value,
        calculate_economic_profit self (VStr "x")
          (VFloat (S754_finite false 5764607523034235 (-56))) g
        = Ok (VFloat (S754_zero false))).
Proof.
  unfold calculate_economic_profit, spec_economic_profit.
  split; [intros -> ->; reflexivity|].
  split; [intros [-> | ->]; [reflexivity|]; rewrite orb_true_r; reflexivity|].
  split; [reflexivity|]. split; [reflexivity|].
  split.
  { intros x y g. cbn. unfold float_op. cbn. unfold B64.of_Z.
    destruct (binary_normalize _ _ g 0 false); reflexivity. }
  split.
  { intros x k z. cbn. unfold float_op. cbn. unfold B64.of_Z.
    destruct (binary_normalize _ _ k 0 false); reflexivity. }
  split.
  { intros c y z. cbn. unfold float_op. cbn. unfold B64.of_Z.
    destruct (binary_normalize _ _ c 0 false); reflexivity. }
  split.
  { intros c k z. cbn. unfold float_op. cbn. unfold B64.of_Z.
    destruct (binary_normalize _ _ (c - k) 0 false); reflexivity. }
  split.
  { intros x k g. cbn. unfold float_op. cbn. unfold B64.of_Z.
    destruct (binary_normalize _ _ k 0 false); cbn; unfold float_op; cbn;
      unfold B64.of_Z; try reflexivity;
      destruct (binary_normalize _ _ g 0 false); reflexivity. }
  split.
  { intros c y g. cbn. unfold float_op. cbn. unfold B64.of_Z.
    destruct (binary_normalize _ _ c 0 false); cbn; unfold float_op; cbn;
      unfold B64.of_Z; try reflexivity;
      destruct (binary_normalize _ _ g 0 false); reflexivity. }
  split; [|reflexivity].
  split; [reflexivity|]. split; [vm_compute; reflexivity|].
  split; [vm_compute; reflexivity|reflexivity].
Qed.

(** C10: the attribute [inflation_rate] is read by no method: two model
    instances that differ in it give the same results, traces included,
    on every operation. *)
Theorem inflation_rate_unobservable (m1 m2 : HoltCFROIModel) :
  (forall a b c,
      calculate_gross_investment m1 a b c = calculate_gross_investment m2 a b c)
  /\ (forall a b c d,
      calculate_gross_cash_flow m1 a b c d
      = calculate_gross_cash_flow m2 a b c d)
  /\ (forall a b, calculate_asset_life m1 a b = calculate_asset_life m2 a b)
  /\ (forall a b c d, calculate_cfroi m1 a b c d = calculate_cfroi m2 a b c d)
  /\ (forall a b c,
      calculate_economic_profit m1 a b c = calculate_economic_profit m2 a b c)
  /\ (forall d, run_valuation m1 d = run_valuation m2 d).
Proof. repeat split. Qed.




(** *** The solver *)

(** [calculate_cfroi] by cases on the test of line 35, on the
    construction of the cash flows and on the outcome of the solver. *)
Lemma calculate_cfroi_cases (self : HoltCFROIModel)
    (gross_cash_flow gross_investment asset_life fade_rate : value) :
  calculate_cfroi self gross_cash_flow gross_investment asset_life fade_rate
  = match degenerate gross_cash_flow gross_investment asset_life with
    | Raise e => (Raise e, [])
    | Ok true => (Ok (VFloat B64.zero), [])
    | Ok false =>
        match build_cash_flows gross_cash_flow gross_investment
                asset_life fade_rate with
        | Raise e =>
            (Ok (VFloat B64.zero), [Print "Error calculating CFROI: " e])
        | Ok cash_flows =>
            (Ok (VFloat (spec_failure_policy (irr cash_flows))),
             IrrCall cash_flows ::
             match irr cash_flows with
             | Raise e => [Print "Error calculating CFROI: " e]
             | Ok _ => []
             end)
        end
    end.
Proof.
  unfold calculate_cfroi.
  destruct (degenerate _ _ _) as [[]|e]; simpl; try reflexivity.
  unfold calculate_cfroi_body, call_irr.
  destruct (build_cash_flows _ _ _ _) as [cfs|e]; simpl; [|reflexivity].
  destruct (irr cfs) as [rate|e]; simpl; [|reflexivity].
  unfold isna, py_max.
  destruct (B64.is_nan rate); simpl; [reflexivity|].
  destruct (B64.ltb rate B64.zero); reflexivity.
Qed.

Lemma py_le_number (v : value) :
  is_number v = true -> exists b, py_le v (VInt 0) = Ok b.
Proof.
  destruct v; try discriminate; intros _; unfold py_le; simpl; eauto.
Qed.

Lemma degenerate_number (gross_cash_flow gross_investment asset_life : value) :
  is_number gross_cash_flow = true -> is_number gross_investment = true ->
  is_number asset_life = true ->
  exists b, degenerate gross_cash_flow gross_investment asset_life = Ok b
    /\ (py_le asset_life (VInt 0) = Ok true \/
        py_le gross_investment (VInt 0) = Ok true \/
        py_le gross_cash_flow (VInt 0) = Ok true -> b = true).
Proof.
  intros [b1 H1]%py_le_number [b2 H2]%py_le_number [b3 H3]%py_le_number.
  unfold degenerate. rewrite H1, H2, H3.
  destruct b3, b2, b1; simpl; eexists; (split; [reflexivity|]);
    intros [H|[H|H]]; congruence.
Qed.

(** C2: on numbers with [assetLife <= 0] or [grossInvestment <= 0] or
    [grossCashFlow <= 0], [calculate_cfroi] returns [0.0] and leaves the
    trace empty: the solver is not called. *)
Theorem degenerate_input_short_circuit (self : HoltCFROIModel)
    (gross_cash_flow gross_investment asset_life fade_rate : value) :
  is_number gross_cash_flow = true -> is_number gross_investment = true ->
  is_number asset_life = true ->
  py_le asset_life (VInt 0) = Ok true \/
  py_le gross_investment (VInt 0) = Ok true \/
  py_le gross_cash_flow (VInt 0) = Ok true ->
  calculate_cfroi self gross_cash_flow gross_investment asset_life fade_rate
  = (Ok (VFloat B64.zero), [])
  /\ solver_calls
       (snd (calculate_cfroi self gross_cash_flow gross_investment
               asset_life fade_rate)) = [].
Proof.
  intros Hc Hi Hl Hle.
  destruct (degenerate_number _ _ _ Hc Hi Hl) as (b & Hb & Htrue).
  rewrite calculate_cfroi_cases, Hb, (Htrue Hle). split; reflexivity.
Qed.

(** C3: on a non-degenerate input whose cash flows reach the solver,
    the answer is [0.0] when the solver fails, returns a NaN or returns
    a negative rate, and the solver's rate otherwise. *)
Theorem solver_failure_policy (self : HoltCFROIModel)
    (gross_cash_flow gross_investment asset_life fade_rate : value)
    (cash_flows : list value) :
  degenerate gross_cash_flow gross_investment asset_life = Ok false ->
  build_cash_flows gross_cash_flow gross_investment asset_life fade_rate
  = Ok cash_flows ->
  fst (calculate_cfroi self gross_cash_flow gross_investment asset_life
         fade_rate)
  = Ok (VFloat
          match irr cash_flows with
          | Raise _ => B64.zero
          | Ok rate =>
              if B64.is_nan rate then B64.zero
              else if B64.ltb rate B64.zero then B64.zero
              else rate
          end)
  /\ solver_calls
       (snd (calculate_cfroi self gross_cash_flow gross_investment
               asset_life fade_rate)) = [cash_flows].
Proof.
  intros Hd Hb. rewrite calculate_cfroi_cases, Hd, Hb. split; [reflexivity|].
  simpl. destruct (irr cash_flows); reflexivity.
Qed.

Lemma failure_policy_range (outcome : result spec_float) :
  (forall rate, outcome = Ok rate ->
     B64.is_nan rate = true \/ B64.is_finite rate = true) ->
  B64.is_finite (spec_failure_policy outcome) = true
  /\ B64.leb B64.zero (spec_failure_policy outcome) = true.
Proof.
  intros Hc. destruct outcome as [rate|e]; simpl; [|split; reflexivity].
  destruct (Hc rate eq_refl) as [Hn|Hf].
  - rewrite Hn. split; reflexivity.
  - destruct rate as [s|s| |s m e]; try discriminate; simpl.
    + split; reflexivity.
    + destruct s; split; reflexivity.
Qed.

Lemma failure_policy_infinite (outcome : result spec_float) :
  B64.is_finite (spec_failure_policy outcome) = false ->
  outcome = Ok (S754_infinity false)
  /\ spec_failure_policy outcome = S754_infinity false.
Proof.
  destruct outcome as [rate|e]; simpl; [|discriminate].
  destruct rate as [s|s| |s m e]; simpl; try discriminate.
  - destruct s; simpl; [discriminate|auto].
  - destruct s; discriminate.
Qed.

Lemma failure_policy_sign (outcome : result spec_float) :
  B64.is_nan (spec_failure_policy outcome) = false
  /\ B64.leb B64.zero (spec_failure_policy outcome) = true.
Proof.
  destruct outcome as [rate|e]; simpl; [|split; reflexivity].
  destruct rate as [s|s| |s m e]; simpl; try (split; reflexivity);
    destruct s; split; reflexivity.
Qed.

(** C4, as amended: on numbers [calculate_cfroi] raises nothing and
    returns a float that is not a NaN and not below zero.  The float is
    finite unless the solver itself answered [+inf], which is returned as
    it is; it is finite for every solver that keeps its contract. *)
Theorem cfroi_nonnegative_not_nan (self : HoltCFROIModel)
    (gross_cash_flow gross_investment asset_life fade_rate : value) :
  is_number gross_cash_flow = true -> is_number gross_investment = true ->
  is_number asset_life = true ->
  exists rate,
    fst (calculate_cfroi self gross_cash_flow gross_investment asset_life
           fade_rate) = Ok (VFloat rate)
    /\ B64.is_nan rate = false
    /\ B64.leb B64.zero rate = true
    /\ (B64.is_finite rate = true
        \/ (rate = S754_infinity false
            /\ exists cash_flows,
                 build_cash_flows gross_cash_flow gross_investment
                   asset_life fade_rate = Ok cash_flows
                 /\ irr cash_flows = Ok (S754_infinity false)))
    /\ (solver_contract -> B64.is_finite rate = true).
Proof.
  intros Hc Hi Hl.
  destruct (degenerate_number _ _ _ Hc Hi Hl) as (b & Hb & _).
  rewrite calculate_cfroi_cases, Hb.
  destruct b; [exists B64.zero; repeat split; auto|].
  destruct (build_cash_flows _ _ _ _) as [cfs|e];
    [|exists B64.zero; repeat split; auto].
  exists (spec_failure_policy (irr cfs)).
  destruct (failure_policy_sign (irr cfs)) as [Hn Hz].
  repeat split; auto.
  - destruct (B64.is_finite (spec_failure_policy (irr cfs))) eqn:Hf;
      [left; reflexivity|right].
    destruct (failure_policy_infinite _ Hf) as [Hirr Hp].
    split; [exact Hp|]. exists cfs. split; [reflexivity|exact Hirr].
  - intros Hcontract.
    apply (failure_policy_range (irr cfs) (Hcontract cfs)).
Qed.

(** *** The cash-flow sequence *)




Lemma project_step (gross_cash_flow fade_rate : value) (year : Z)
    (rest : list Z) (cash_flows : list value) :
  project gross_cash_flow fade_rate (year :: rest) cash_flows
  = (let* cf := spec_projected_flow gross_cash_flow fade_rate year in
     project gross_cash_flow fade_rate rest (cash_flows ++ [cf])).
Proof.
  unfold spec_projected_flow. cbn [project].
  destruct (py_sub (VInt 1) fade_rate) as [base|e]; cbn [rbind];
    [|reflexivity].
  destruct (py_pow base (VInt year)) as [decay|e]; cbn [rbind]; reflexivity.
Qed.

Lemma project_mapM (gross_cash_flow fade_rate : value) (years : list Z) :
  forall cash_flows,
    project gross_cash_flow fade_rate years cash_flows
    = (let* flows := mapM (spec_projected_flow gross_cash_flow fade_rate)
                          years in
       Ok (cash_flows ++ flows)).
Proof.
  induction years as [|year rest IH]; intros cash_flows.
  - simpl. rewrite app_nil_r. reflexivity.
  - rewrite project_step. cbn [mapM].
    destruct (spec_projected_flow gross_cash_flow fade_rate year)
      as [cf|e]; cbn [rbind]; [|reflexivity].
    rewrite IH.
    destruct (mapM _ rest) as [flows|e]; cbn [rbind]; [|reflexivity].
    rewrite <- app_assoc. reflexivity.
Qed.













(** *** The orchestrator *)

Lemma fails_bind_l {A B : Type} (m : M A) (k : A -> M B) :
  fails m -> fails (mbind' m k).
Proof. intros (e & t & ->). exists e, t. reflexivity. Qed.

Lemma fails_bind_r {A B : Type} (m : M A) (k : A -> M B) :
  (forall a, fails (k a)) -> fails (mbind' m k).
Proof.
  intros Hk. destruct m as [[a|e] t]; simpl.
  - destruct (Hk a) as (e' & t' & ->). exists e', (t ++ t'). reflexivity.
  - exists e, t. reflexivity.
Qed.

Lemma getitem_missing (d : gmap string value) (k : string) :
  d !! k = None -> fails (lift (getitem d k)).
Proof.
  intros H. unfold getitem. rewrite H. exists (KeyError k), []. reflexivity.
Qed.

Lemma missing_field_fails (self : HoltCFROIModel) (d : gmap string value)
    (k : string) :
  In k required_fields -> d !! k = None -> fails (run_valuation_body self d).
Proof.
  intros Hk Hnone. unfold run_valuation_body.
  simpl in Hk.
  destruct Hk as [<-|[<-|[<-|[<-|[<-|[<-|[]]]]]]];
    repeat first
      [ apply fails_bind_l, getitem_missing, Hnone
      | apply fails_bind_r; intros ? ].
Qed.

Lemma run_valuation_cases (self : HoltCFROIModel) (d : gmap string value) :
  run_valuation self d
  = match run_valuation_body self d with
    | (Ok r, t) => (Ok r, t)
    | (Raise e, t) =>
        (Ok all_zero, t ++ [Print "Error in valuation calculation: " e])
    end.
Proof.
  unfold run_valuation, try_except.
  destruct (run_valuation_body self d) as [[r|e] t]; reflexivity.
Qed.

(** C5: [run_valuation] always returns a record and raises nothing: the
    record computed by the pipeline when it succeeds, and the all-zero
    record when a required field is missing or when any step of the
    pipeline raises. *)
Theorem run_valuation_total (self : HoltCFROIModel)
    (company_data : gmap string value) :
  (exists r t, run_valuation self company_data = (Ok r, t))
  /\ ((exists k, In k required_fields /\ company_data !! k = None) ->
      fst (run_valuation self company_data) = Ok all_zero)
  /\ (forall e t,
        run_valuation_body self company_data = (Raise e, t) ->
        fst (run_valuation self company_data) = Ok all_zero)
  /\ (forall r t,
        run_valuation_body self company_data = (Ok r, t) ->
        run_valuation self company_data = (Ok r, t)).
Proof.
  rewrite run_valuation_cases. repeat split.
  - destruct (run_valuation_body self company_data) as [[r|e] t]; eauto.
  - intros (k & Hk & Hnone).
    destruct (missing_field_fails self company_data k Hk Hnone)
      as (e & t & ->). reflexivity.
  - intros e t ->. reflexivity.
  - intros r t ->. reflexivity.
Qed.

(** *** Degenerate inputs through the orchestrator *)

Lemma of_Z_raise (n : Z) (e : exn) : B64.of_Z n = Raise e -> e = OverflowError.
Proof.
  unfold B64.of_Z. destruct (binary_normalize _ _ _ _ _); congruence.
Qed.

(** A positive number, once converted, is a positive float or [+inf]. *)
Lemma to_float_positive (v : value) (x : spec_float) :
  py_gt v (VInt 0) = Ok true -> to_float v = Ok x ->
  B64.is_nan x = false /\ B64.is_zero x = false /\ B64.signbit x = false.
Proof.
  intros [(n & -> & Hn) | (y & -> & Hz & Hnan & Hs)]%py_gt_zero_cases; simpl.
  - intros (Hnan & _ & Hpos & _)%of_Z_sign.
    destruct (Hpos Hn) as [Hs Hz]. auto.
  - intros [= <-]. auto.
Qed.

Lemma sub_zero_sign (y : spec_float) :
  B64.is_nan y = false -> B64.is_zero y = false ->
  B64.is_nan (B64.sub B64.zero y) = false
  /\ B64.is_zero (B64.sub B64.zero y) = false
  /\ B64.signbit (B64.sub B64.zero y) = negb (B64.signbit y).
Proof. destruct y; simpl; try discriminate; auto. Qed.

Lemma mul_sign (x y : spec_float) :
  B64.is_nan x = false -> B64.is_zero x = false ->
  B64.is_nan y = false -> B64.is_zero y = false ->
  B64.is_nan (B64.mul x y) = false
  /\ B64.signbit (B64.mul x y) = xorb (B64.signbit x) (B64.signbit y).
Proof.
  destruct x as [sx|sx| |sx mx ex], y as [sy|sy| |sy my ey]; simpl;
    try discriminate; auto.
  intros _ _ _ _. unfold B64.mul, SFmul.
  pose proof (binary_round_aux_sign (xorb sx sy) (Z.pos (mx * my))
                (ex + ey) loc_Exact ltac:(lia)) as H.
  destruct (binary_round_aux _ _ _ _ _ _); simpl; try done; auto.
Qed.

Lemma negative_sign (x : spec_float) :
  B64.is_nan x = false -> B64.signbit x = true ->
  B64.ltb B64.zero x = false
  /\ (B64.is_zero x = false -> B64.ltb x B64.zero = true).
Proof.
  destruct x as [s|s| |s m e]; simpl; try discriminate;
    intros _ ->; split; auto; discriminate.
Qed.

(** The profit on a zero rate: with a positive cost of capital and a
    positive gross investment, [(0.0 - costOfCapital) * grossInvestment]
    has its sign bit set when it is computed at all. *)
Lemma zero_rate_profit_sign (cost_of_capital gross_investment ep : value) :
  py_gt cost_of_capital (VInt 0) = Ok true ->
  py_gt gross_investment (VInt 0) = Ok true ->
  spec_economic_profit (VFloat B64.zero) cost_of_capital gross_investment
  = Ok ep ->
  exists x, ep = VFloat x /\ B64.is_nan x = false /\ B64.signbit x = true.
Proof.
  intros Hk Hg. unfold spec_economic_profit.
  assert (Hnk : is_number cost_of_capital = true).
  { apply py_gt_zero_cases in Hk as [(n & -> & _)|(y & -> & _)]; reflexivity. }
  assert (Hng : is_number gross_investment = true).
  { apply py_gt_zero_cases in Hg as [(n & -> & _)|(y & -> & _)]; reflexivity. }
  assert (Hsub : py_sub (VFloat B64.zero) cost_of_capital
                 = (let* y := to_float cost_of_capital in
                    Ok (VFloat (B64.sub B64.zero y)))).
  { destruct cost_of_capital; try discriminate; reflexivity. }
  rewrite Hsub.
  destruct (to_float cost_of_capital) as [y|e] eqn:Ey; cbn [rbind];
    [|discriminate].
  destruct (to_float_positive _ _ Hk Ey) as (Hy1 & Hy2 & Hy3).
  destruct (sub_zero_sign y Hy1 Hy2) as (Hs1 & Hs2 & Hs3).
  assert (Hmul : py_mul (VFloat (B64.sub B64.zero y)) gross_investment
                 = (let* z := to_float gross_investment in
                    Ok (VFloat (B64.mul (B64.sub B64.zero y) z)))).
  { destruct gross_investment; try discriminate; reflexivity. }
  rewrite Hmul.
  destruct (to_float gross_investment) as [z|e] eqn:Ez; cbn [rbind];
    [|discriminate].
  destruct (to_float_positive _ _ Hg Ez) as (Hz1 & Hz2 & Hz3).
  destruct (mul_sign _ z Hs1 Hs2 Hz1 Hz2) as (Hm1 & Hm2).
  intros [= <-]. exists (B64.mul (B64.sub B64.zero y) z).
  split; [reflexivity|]. split; [exact Hm1|].
  rewrite Hm2, Hs3, Hy3, Hz3. reflexivity.
Qed.

Lemma all_zero_investment_not_positive :
  py_gt (gross_investment all_zero) (VInt 0) = Ok false.
Proof. reflexivity. Qed.

Lemma mbind'_pure {A B : Type} (a : A) (k : A -> M B) :
  mbind' (Ok a, []) k = k a.
Proof. unfold mbind'. destruct (k a). reflexivity. Qed.

Lemma py_le_zero_cases (v : value) :
  py_le v (VInt 0) = Ok true ->
  (exists n, v = VInt n /\ n <= 0) \/
  (exists y, v = VFloat y /\ B64.is_nan y = false /\
             (B64.is_zero y = true \/ B64.signbit y = true)).
Proof.
  destruct v as [n|y|s|]; unfold py_le; simpl; try discriminate.
  - destruct (n ?= 0) eqn:E; try discriminate; intros _; left; exists n;
      (split; [reflexivity|]).
    + rewrite Z.compare_eq_iff in E. lia.
    + rewrite Z.compare_lt_iff in E. lia.
  - intros H. right. exists y. split; [reflexivity|].
    destruct y as [s|s| |s m e]; simpl in *; try discriminate; auto.
    + destruct s; [auto|discriminate].
    + destruct s; [auto|]. exfalso. cbn [cond_Zopp] in H.
      destruct (0 <=? e) eqn:He.
      * apply Z.leb_le in He.
        pose proof (Z.pow_pos_nonneg 2 e ltac:(lia) He) as Hp.
        pose proof (Z.mul_pos_pos (Z.pos m) (2 ^ e) ltac:(lia) Hp) as Hm.
        destruct (Z.pos m * 2 ^ e ?= 0) eqn:E; try discriminate;
          [rewrite Z.compare_eq_iff in E|rewrite Z.compare_lt_iff in E]; lia.
      * discriminate.
Qed.

(** A number that is not above zero, once converted, is a zero or has
    its sign bit set. *)
Lemma to_float_not_positive (v : value) (y : spec_float) :
  py_le v (VInt 0) = Ok true -> to_float v = Ok y ->
  B64.is_nan y = false /\ (B64.is_zero y = true \/ B64.signbit y = true).
Proof.
  intros [(n & -> & Hn) | (x & -> & Hnan & Hx)]%py_le_zero_cases; simpl.
  - destruct (Z.eq_dec n 0) as [->|Hne].
    + intros [= <-]. auto.
    + intros (Hnan & _ & _ & Hneg)%of_Z_sign.
      destruct (Hneg ltac:(lia)) as [Hs _]. auto.
  - intros [= <-]. auto.
Qed.

Lemma zero_sub_not_positive (y : spec_float) :
  B64.is_nan y = false -> B64.is_zero y = true \/ B64.signbit y = true ->
  B64.is_nan (B64.sub B64.zero y) = false
  /\ B64.signbit (B64.sub B64.zero y) = false.
Proof.
  destruct y as [s|s| |s m e]; simpl; intros Hn [H|H]; try discriminate;
    subst; try (destruct s); auto.
Qed.

Lemma signbit_clear_not_negative (x : spec_float) :
  B64.signbit x = false -> B64.ltb x B64.zero = false.
Proof. destruct x as [s|s| |s m e]; simpl; intros H; subst; reflexivity. Qed.

Lemma mul_not_negative (x z : spec_float) :
  B64.is_nan x = false -> B64.signbit x = false ->
  B64.is_nan z = false -> B64.is_zero z = false -> B64.signbit z = false ->
  B64.ltb (B64.mul x z) B64.zero = false
  /\ (B64.is_nan (B64.mul x z) = false ->
      B64.signbit (B64.mul x z) = false).
Proof.
  intros Hx Hsx Hz Hzz Hsz.
  destruct (B64.is_zero x) eqn:Hzx.
  - destruct x as [s|s| |s m e]; try discriminate. simpl in Hsx. subst s.
    destruct z as [s|s| |s m e]; try discriminate; simpl in Hsz; subst s;
      simpl; auto.
  - destruct (mul_sign x z Hx Hzx Hz Hzz) as [Hn Hs].
    rewrite Hsx, Hsz in Hs. simpl in Hs.
    split; [apply signbit_clear_not_negative, Hs|intros _; exact Hs].
Qed.

(** The profit on a zero rate under a cost of capital that is not above
    zero: with a positive gross investment,
    [(0.0 - costOfCapital) * grossInvestment] is never below zero: it is
    a float with its sign bit clear, or the NaN of [0.0 * inf]. *)
Lemma zero_rate_profit_not_negative
    (cost_of_capital gross_investment ep : value) :
  py_le cost_of_capital (VInt 0) = Ok true ->
  py_gt gross_investment (VInt 0) = Ok true ->
  spec_economic_profit (VFloat B64.zero) cost_of_capital gross_investment
  = Ok ep ->
  exists x, ep = VFloat x /\ B64.ltb x B64.zero = false
            /\ (B64.is_nan x = false -> B64.signbit x = false).
Proof.
  intros Hk Hg. unfold spec_economic_profit.
  assert (Hnk : is_number cost_of_capital = true).
  { apply py_le_zero_cases in Hk as [(n & -> & _)|(y & -> & _)]; reflexivity. }
  assert (Hng : is_number gross_investment = true).
  { apply py_gt_zero_cases in Hg as [(n & -> & _)|(y & -> & _)]; reflexivity. }
  assert (Hsub : py_sub (VFloat B64.zero) cost_of_capital
                 = (let* y := to_float cost_of_capital in
                    Ok (VFloat (B64.sub B64.zero y)))).
  { destruct cost_of_capital; try discriminate; reflexivity. }
  rewrite Hsub.
  destruct (to_float cost_of_capital) as [y|e] eqn:Ey; cbn [rbind];
    [|discriminate].
  destruct (to_float_not_positive _ _ Hk Ey) as (Hy1 & Hy2).
  destruct (zero_sub_not_positive y Hy1 Hy2) as (Hs1 & Hs2).
  assert (Hmul : py_mul (VFloat (B64.sub B64.zero y)) gross_investment
                 = (let* z := to_float gross_investment in
                    Ok (VFloat (B64.mul (B64.sub B64.zero y) z)))).
  { destruct gross_investment; try discriminate; reflexivity. }
  rewrite Hmul.
  destruct (to_float gross_investment) as [z|e] eqn:Ez; cbn [rbind];
    [|discriminate].
  destruct (to_float_positive _ _ Hg Ez) as (Hz1 & Hz2 & Hz3).
  intros [= <-]. exists (B64.mul (B64.sub B64.zero y) z).
  split; [reflexivity|].
  apply mul_not_negative; assumption.
Qed.

(** C9, as amended: when all required fields are present, the
    degenerate test of [calculate_cfroi] fires, the gross investment is
    positive and the economic profit is computed, [run_valuation] returns
    the record with [cfroi = 0.0] and the computed gross investment, gross
    cash flow and asset life; the record is not the all-zero one; the
    economic profit is [(0.0 - costOfCapital) * grossInvestment] for a
    numeric cost of capital; for a positive one it is never positive:
    negative, or a zero on underflow; and for a cost of capital that is
    not above zero it is never negative. *)
Theorem degenerate_record_profit (self : HoltCFROIModel)
    (company_data : gmap string value)
    (ga ad ni dep ie re gi gcf al ep : value) :
  company_data !! "gross_assets" = Some ga ->
  company_data !! "accumulated_depreciation" = Some ad ->
  company_data !! "net_income" = Some ni ->
  company_data !! "depreciation" = Some dep ->
  company_data !! "interest_expense" = Some ie ->
  company_data !! "rent_expense" = Some re ->
  calculate_gross_investment self ga ad
    (get company_data "inflation_adjustment" default_inflation_adjustment)
  = Ok gi ->
  calculate_gross_cash_flow self ni dep ie re = Ok gcf ->
  calculate_asset_life self ga dep = Ok al ->
  degenerate gcf gi al = Ok true ->
  py_gt gi (VInt 0) = Ok true ->
  calculate_economic_profit self (VFloat B64.zero)
    (get company_data "cost_of_capital" default_cost_of_capital) gi
  = Ok ep ->
  let coc := get company_data "cost_of_capital" default_cost_of_capital in
  let r := {| cfroi := VFloat B64.zero;
              economic_profit := ep;
              gross_investment := gi;
              gross_cash_flow := gcf;
              asset_life := al |} in
  run_valuation self company_data = (Ok r, [])
  /\ r <> all_zero
  /\ (is_number coc = true ->
      spec_economic_profit (VFloat B64.zero) coc gi = Ok ep)
  /\ (py_gt coc (VInt 0) = Ok true ->
      exists x, ep = VFloat x
        /\ B64.is_nan x = false
        /\ B64.ltb B64.zero x = false
        /\ (B64.is_zero x = false -> B64.ltb x B64.zero = true))
  /\ (py_le coc (VInt 0) = Ok true ->
      exists x, ep = VFloat x
        /\ B64.ltb x B64.zero = false
        /\ (B64.is_nan x = false -> B64.signbit x = false)).
Proof.
  intros Hga Had Hni Hdep Hie Hre Hgi Hgcf Hal Hdeg Hpos Hep coc r.
  assert (Hspec : is_number coc = true ->
                  spec_economic_profit (VFloat B64.zero) coc gi = Ok ep).
  { intros Hn. unfold calculate_economic_profit in Hep. fold coc in Hep.
    rewrite Hn in Hep. exact Hep. }
  split; [|split; [|split; [|split]]].
  - rewrite run_valuation_cases. unfold run_valuation_body, getitem, lift.
    rewrite Hga, Had, Hni, Hdep, Hie, Hre.
    rewrite !mbind'_pure, Hgi, !mbind'_pure, Hgcf, !mbind'_pure, Hal.
    rewrite mbind'_pure, calculate_cfroi_cases, Hdeg, mbind'_pure, Hep.
    rewrite mbind'_pure. reflexivity.
  - intros Hr. apply (f_equal gross_investment) in Hr. simpl in Hr.
    subst gi. discriminate Hpos.
  - exact Hspec.
  - intros Hk.
    assert (Hn : is_number coc = true).
    { apply py_gt_zero_cases in Hk as [(n & -> & _)|(y & -> & _)];
        reflexivity. }
    destruct (zero_rate_profit_sign coc gi ep Hk Hpos (Hspec Hn))
      as (x & -> & Hnan & Hs).
    destruct (negative_sign x Hnan Hs) as [H1 H2].
    exists x. auto.
  - intros Hk.
    assert (Hn : is_number coc = true).
    { apply py_le_zero_cases in Hk as [(n & -> & _)|(y & -> & _)];
        reflexivity. }
    exact (zero_rate_profit_not_negative coc gi ep Hk Hpos (Hspec Hn)).
Qed.

(** *** Further properties of the code *)

Lemma mbind'_lift {A B : Type} (m : result A) (k : A -> M B) :
  mbind' (lift m) k = match m with Ok a => k a | Raise e => (Raise e, []) end.
Proof.
  destruct m as [a|e]; [apply mbind'_pure | reflexivity].
Qed.

(** [run_valuation_body] by cases on its three stages. *)
Lemma run_valuation_body_cases (self : HoltCFROIModel)
    (d : gmap string value) :
  run_valuation_body self d
  = match valuation_inputs self d with
    | Raise e => (Raise e, [])
    | Ok (gi, gcf, al) =>
        match calculate_cfroi self gcf gi al
                (get d "fade_rate" default_fade_rate) with
        | (Raise e, t) => (Raise e, t)
        | (Ok c, t) =>
            match calculate_economic_profit self c
                    (get d "cost_of_capital" default_cost_of_capital) gi with
            | Raise e => (Raise e, t)
            | Ok ep =>
                (Ok {| cfroi := c;
                       economic_profit := ep;
                       gross_investment := gi;
                       gross_cash_flow := gcf;
                       asset_life := al |}, t)
            end
        end
    end.
Proof.
  unfold run_valuation_body, valuation_inputs.
  destruct (getitem d "gross_assets") as [ga|e]; rewrite mbind'_lift;
    cbn [rbind]; [|reflexivity].
  destruct (getitem d "accumulated_depreciation") as [ad|e];
    rewrite mbind'_lift; cbn [rbind]; [|reflexivity].
  destruct (calculate_gross_investment _ _ _ _) as [gi|e];
    rewrite mbind'_lift; cbn [rbind]; [|reflexivity].
  destruct (getitem d "net_income") as [ni|e]; rewrite mbind'_lift;
    cbn [rbind]; [|reflexivity].
  destruct (getitem d "depreciation") as [dep|e]; rewrite mbind'_lift;
    cbn [rbind]; [|reflexivity].
  destruct (getitem d "interest_expense") as [ie|e]; rewrite mbind'_lift;
    cbn [rbind]; [|reflexivity].
  destruct (getitem d "rent_expense") as [re|e]; rewrite mbind'_lift;
    cbn [rbind]; [|reflexivity].
  destruct (calculate_gross_cash_flow _ _ _ _ _) as [gcf|e];
    rewrite mbind'_lift; cbn [rbind]; [|reflexivity].
  rewrite !mbind'_lift.
  destruct (calculate_asset_life _ _ _) as [al|e]; cbn [rbind];
    [|reflexivity].
  destruct (calculate_cfroi _ _ _ _ _) as [[c|e] t]; cbn [mbind'];
    [|reflexivity].
  unfold lift.
  destruct (calculate_economic_profit _ _ _ _) as [ep|e]; cbn;
    rewrite app_nil_r; reflexivity.
Qed.

Lemma calculate_cfroi_ok (self : HoltCFROIModel)
    (gcf gi al fade v : value) (t : list event) :
  calculate_cfroi self gcf gi al fade = (Ok v, t) ->
  exists rate, v = VFloat rate
    /\ B64.is_nan rate = false
    /\ B64.leb B64.zero rate = true.
Proof.
  rewrite calculate_cfroi_cases.
  destruct (degenerate gcf gi al) as [[]|e]; [| |discriminate].
  - intros [= <- <-]. exists B64.zero. repeat split.
  - destruct (build_cash_flows gcf gi al fade) as [cfs|e]; intros [= <- <-].
    + exists (spec_failure_policy (irr cfs)).
      split; [reflexivity|]. apply failure_policy_sign.
    + exists B64.zero. repeat split.
Qed.

(** What [calculate_cfroi] leaves in the trace: at most one call of the
    solver, first, and at most one diagnostic of its own. *)
Lemma calculate_cfroi_trace (self : HoltCFROIModel)
    (gcf gi al fade : value) :
  let t := snd (calculate_cfroi self gcf gi al fade) in
  (length (solver_calls t) <= 1)%nat
  /\ forall ev, In ev t ->
       (exists c, ev = IrrCall c)
       \/ (exists e, ev = Print "Error calculating CFROI: " e).
Proof.
  rewrite calculate_cfroi_cases.
  destruct (degenerate gcf gi al) as [[]|e]; cbn;
    try (split; [lia | intros ev []]).
  destruct (build_cash_flows gcf gi al fade) as [cfs|e]; cbn.
  - destruct (irr cfs) as [rate|e]; cbn; split; try lia.
    + intros ev [<-|[]]. left. eauto.
    + intros ev [<-|[<-|[]]]; [left|right]; eauto.
  - split; [lia|]. intros ev [<-|[]]. right. eauto.
Qed.

Lemma solver_calls_app (t1 t2 : list event) :
  solver_calls (t1 ++ t2) = solver_calls t1 ++ solver_calls t2.
Proof. apply omap_app. Qed.

(** The trace of [run_valuation_body] is empty or the trace of its call
    of [calculate_cfroi]. *)
Lemma run_valuation_body_trace (self : HoltCFROIModel)
    (d : gmap string value) :
  snd (run_valuation_body self d) = []
  \/ exists gcf gi al fade,
       snd (run_valuation_body self d)
       = snd (calculate_cfroi self gcf gi al fade).
Proof.
  rewrite run_valuation_body_cases.
  destruct (valuation_inputs self d) as [[[gi gcf] al]|e]; [|left; reflexivity].
  right. exists gcf, gi, al, (get d "fade_rate" default_fade_rate).
  destruct (calculate_cfroi _ _ _ _ _) as [[c|e] t]; [|reflexivity].
  destruct (calculate_economic_profit _ _ _ _); reflexivity.
Qed.

(** X1: one run calls the solver at most once, through [calculate_cfroi]
    directly or through [run_valuation]. *)
Theorem solver_called_at_most_once (self : HoltCFROIModel)
    (company_data : gmap string value)
    (gross_cash_flow gross_investment asset_life fade_rate : value) :
  (length (solver_calls
             (snd (calculate_cfroi self gross_cash_flow gross_investment
                     asset_life fade_rate))) <= 1)%nat
  /\ (length (solver_calls (snd (run_valuation self company_data))) <= 1)%nat.
Proof.
  split; [apply calculate_cfroi_trace|].
  rewrite run_valuation_cases.
  assert (H : (length (solver_calls (snd (run_valuation_body self
                                            company_data))) <= 1)%nat).
  { destruct (run_valuation_body_trace self company_data)
      as [->|(gcf & gi & al & fade & ->)]; [simpl; lia|].
    apply calculate_cfroi_trace. }
  destruct (run_valuation_body self company_data) as [[r|e] t];
    cbn [snd] in *; [exact H|].
  rewrite solver_calls_app, length_app. simpl. lia.
Qed.

(** X2: whatever the record, [run_valuation] returns a [cfroi] that is a
    float, not a NaN and not below zero. *)
Theorem valuation_cfroi_field (self : HoltCFROIModel)
    (company_data : gmap string value) :
  exists r t rate,
    run_valuation self company_data = (Ok r, t)
    /\ cfroi r = VFloat rate
    /\ B64.is_nan rate = false
    /\ B64.leb B64.zero rate = true.
Proof.
  rewrite run_valuation_cases, run_valuation_body_cases.
  destruct (valuation_inputs self company_data) as [[[gi gcf] al]|e];
    [|exists all_zero; eexists; exists B64.zero; repeat split].
  destruct (calculate_cfroi _ _ _ _ _) as [[c|e] t] eqn:Ec;
    [|exists all_zero; eexists; exists B64.zero; repeat split].
  destruct (calculate_cfroi_ok _ _ _ _ _ _ _ Ec) as (rate & -> & Hn & Hz).
  destruct (calculate_economic_profit _ _ _ _) as [ep|e].
  - eexists; eexists; exists rate. repeat split; assumption.
  - exists all_zero; eexists; exists B64.zero; repeat split.
Qed.

(** X3: a record returned by [run_valuation] is the all-zero fallback or
    is consistent: its economic profit is [calculate_economic_profit] of
    its own [cfroi] and gross investment, and its [cfroi] is
    [calculate_cfroi] of its own gross cash flow, gross investment and
    asset life. *)
Theorem valuation_record_consistent (self : HoltCFROIModel)
    (company_data : gmap string value) (r : ValuationResult)
    (t : list event) :
  run_valuation self company_data = (Ok r, t) ->
  r = all_zero
  \/ (calculate_economic_profit self (cfroi r)
        (get company_data "cost_of_capital" default_cost_of_capital)
        (gross_investment r) = Ok (economic_profit r)
      /\ calculate_cfroi self (gross_cash_flow r) (gross_investment r)
           (asset_life r) (get company_data "fade_rate" default_fade_rate)
         = (Ok (cfroi r), t)).
Proof.
  rewrite run_valuation_cases, run_valuation_body_cases.
  destruct (valuation_inputs self company_data) as [[[gi gcf] al]|e];
    [|intros [= <- _]; left; reflexivity].
  destruct (calculate_cfroi _ _ _ _ _) as [[c|e] t'] eqn:Ec;
    [|intros [= <- _]; left; reflexivity].
  destruct (calculate_economic_profit _ _ _ _) as [ep|e] eqn:Ep;
    [|intros [= <- _]; left; reflexivity].
  intros [= <- <-]. right. simpl. split; assumption.
Qed.

Lemma getitem_ok (d : gmap string value) (k : string) (v : value) :
  getitem d k = Ok v <-> d !! k = Some v.
Proof.
  unfold getitem. destruct (d !! k); split; congruence.
Qed.

Lemma valuation_inputs_ok (self : HoltCFROIModel) (d : gmap string value)
    (gi gcf al : value) :
  valuation_inputs self d = Ok (gi, gcf, al) ->
  exists ga ad ni dep ie re,
    d !! "gross_assets" = Some ga
    /\ d !! "accumulated_depreciation" = Some ad
    /\ d !! "net_income" = Some ni
    /\ d !! "depreciation" = Some dep
    /\ d !! "interest_expense" = Some ie
    /\ d !! "rent_expense" = Some re
    /\ calculate_gross_investment self ga ad
         (get d "inflation_adjustment" default_inflation_adjustment) = Ok gi
    /\ calculate_gross_cash_flow self ni dep ie re = Ok gcf
    /\ calculate_asset_life self ga dep = Ok al.
Proof.
  unfold valuation_inputs.
  destruct (getitem d "gross_assets") as [ga|] eqn:Ega; [|discriminate].
  destruct (getitem d "accumulated_depreciation") as [ad|] eqn:Ead;
    [|discriminate].
  cbn [rbind].
  destruct (calculate_gross_investment _ _ _ _) as [gi'|] eqn:Egi;
    [|discriminate].
  destruct (getitem d "net_income") as [ni|] eqn:Eni; [|discriminate].
  destruct (getitem d "depreciation") as [dep|] eqn:Edep; [|discriminate].
  destruct (getitem d "interest_expense") as [ie|] eqn:Eie; [|discriminate].
  destruct (getitem d "rent_expense") as [re|] eqn:Ere; [|discriminate].
  cbn [rbind].
  destruct (calculate_gross_cash_flow _ _ _ _ _) as [gcf'|] eqn:Egcf;
    [|discriminate].
  cbn [rbind].
  destruct (calculate_asset_life _ _ _) as [al'|] eqn:Eal; [|discriminate].
  intros [= <- <- <-].
  apply getitem_ok in Ega, Ead, Eni, Edep, Eie, Ere.
  exists ga, ad, ni, dep, ie, re. repeat split; assumption.
Qed.

(** A run whose degenerate test fires: [cfroi] is [0.0] in the record
    returned, fallback or not, and the solver is not called. *)
Lemma degenerate_run (self : HoltCFROIModel) (d : gmap string value) :
  (forall gi gcf al,
     valuation_inputs self d = Ok (gi, gcf, al) ->
     degenerate gcf gi al = Ok true) ->
  exists r t,
    run_valuation self d = (Ok r, t)
    /\ cfroi r = VFloat B64.zero
    /\ solver_calls t = [].
Proof.
  intros Hdeg. rewrite run_valuation_cases, run_valuation_body_cases.
  destruct (valuation_inputs self d) as [[[gi gcf] al]|e];
    [|exists all_zero; eexists; repeat split].
  rewrite calculate_cfroi_cases, (Hdeg gi gcf al eq_refl).
  destruct (calculate_economic_profit _ _ _ _) as [ep|e];
    eexists; eexists; repeat split.
Qed.

Lemma asset_life_number (self : HoltCFROIModel) (ga dep al : value) :
  calculate_asset_life self ga dep = Ok al ->
  al = VInt 0 \/ exists x, al = VFloat x.
Proof.
  unfold calculate_asset_life.
  destruct (py_gt dep (VInt 0)) as [[]|]; cbn [rbind]; try discriminate.
  - destruct ga as [m|x|s|], dep as [n|y|s'|]; simpl; unfold float_op; simpl;
      try discriminate.
    + destruct (B64.div_Z m n); simpl; [|discriminate].
      intros [= <-]. right. eauto.
    + destruct (B64.of_Z m); simpl; [|discriminate].
      destruct (B64.is_zero y); [discriminate|].
      intros [= <-]. right. eauto.
    + destruct (B64.of_Z n) as [y|]; simpl; [|discriminate].
      destruct (B64.is_zero y); [discriminate|].
      intros [= <-]. right. eauto.
    + destruct (B64.is_zero y); [discriminate|].
      intros [= <-]. right. eauto.
  - intros [= <-]. left. reflexivity.
Qed.

(** X4: when the depreciation is not above zero (zero, negative or a
    NaN), [run_valuation] never calls the solver and reports a [cfroi] of
    [0.0], whatever the other fields hold. *)
Theorem no_depreciation_no_solver (self : HoltCFROIModel)
    (company_data : gmap string value) (depreciation : value) :
  company_data !! "depreciation" = Some depreciation ->
  py_gt depreciation (VInt 0) = Ok false ->
  exists r t,
    run_valuation self company_data = (Ok r, t)
    /\ cfroi r = VFloat B64.zero
    /\ solver_calls t = [].
Proof.
  intros Hdep Hgt. apply degenerate_run. intros gi gcf al Hin.
  apply valuation_inputs_ok in Hin
    as (ga & ad & ni & dep & ie & re & _ & _ & _ & Hdep' & _ & _ & _ & _ & Hal).
  rewrite Hdep in Hdep'. injection Hdep' as <-.
  unfold calculate_asset_life in Hal. rewrite Hgt in Hal.
  injection Hal as <-. reflexivity.
Qed.

(** *** The sign of the gross investment *)

Lemma compare_Z_zero (x : spec_float) :
  B64.compare_Z x 0
  = match x with
    | S754_nan => None
    | S754_zero _ => Some Eq
    | _ => Some (if B64.signbit x then Lt else Gt)
    end.
Proof.
  destruct x as [s|s| |s m e]; simpl; try reflexivity.
  destruct (0 <=? e) eqn:E; simpl.
  - apply Z.leb_le in E.
    pose proof (Z.pow_pos_nonneg 2 e ltac:(lia) E) as Hp.
    destruct s; simpl; f_equal.
    + apply Z.compare_lt_iff. nia.
    + apply Z.compare_gt_iff. nia.
  - destruct s; reflexivity.
Qed.

Lemma binary_round_aux_exponent (sx s : bool) (mx ex : Z) (lx : location)
    (m : positive) (e : Z) :
  binary_round_aux B64.prec B64.emax sx mx ex lx = S754_finite s m e ->
  emin B64.prec B64.emax <= e.
Proof.
  unfold binary_round_aux, shr_fexp.
  set (n1 := fexp B64.prec B64.emax (Zdigits2 mx + ex) - ex).
  destruct (shr (shr_record_of_loc mx lx) ex n1) as [mrs' e'] eqn:E1.
  set (m2 := round_nearest_even (shr_m mrs') (loc_of_shr_record mrs')).
  set (n2 := fexp B64.prec B64.emax (Zdigits2 m2 + e') - e').
  destruct (shr (shr_record_of_loc m2 loc_Exact) e' n2) as [mrs'' e''] eqn:E2.
  assert (He' : emin B64.prec B64.emax <= e').
  { change e' with (snd (mrs', e')). rewrite <- E1, shr_exponent.
    unfold n1, fexp, emin in *. unfold B64.prec, B64.emax in *.
    destruct (0 <? _) eqn:E; [lia|]. apply Z.ltb_ge in E. lia. }
  assert (He'' : emin B64.prec B64.emax <= e'').
  { change e'' with (snd (mrs'', e'')). rewrite <- E2, shr_exponent.
    unfold n2, fexp, emin in *. unfold B64.prec, B64.emax in *.
    destruct (0 <? _) eqn:E; lia. }
  destruct (shr_m mrs''); try discriminate.
  destruct (_ <=? _); [|discriminate]. intros [= _ _ <-]. exact He''.
Qed.

Lemma of_Z_exponent (n : Z) (s : bool) (m : positive) (e : Z) :
  B64.of_Z n = Ok (S754_finite s m e) -> emin B64.prec B64.emax <= e.
Proof.
  unfold B64.of_Z, binary_normalize, binary_round.
  destruct n as [|p|p]; [discriminate| |];
    destruct (shl_align p 0 _) as [mz ez];
    destruct (binary_round_aux _ _ _ _ _ _) eqn:E; try discriminate;
    intros [= <- <- <-]; apply binary_round_aux_exponent in E; exact E.
Qed.

(** A product by the literal [1.0] is not flushed to zero. *)
Lemma mul_one_nonzero (s : bool) (m : positive) (e : Z) :
  emin B64.prec B64.emax <= e ->
  B64.is_zero (B64.mul (S754_finite s m e) B64.lit_1_0) = false.
Proof.
  intros He. unfold B64.mul, B64.lit_1_0, SFmul.
  apply binary_round_aux_nonzero; [lia|].
  simpl Zdigits2.
  pose proof (digits2_pos_bounds (m * 4503599627370496)) as [_ Hhi].
  assert (H52 : 2 ^ 52 < 2 ^ Z.pos (digits2_pos (m * 4503599627370496))).
  { eapply Z.le_lt_trans; [|exact Hhi].
    rewrite Pos2Z.inj_mul. change (Z.pos 4503599627370496) with (2 ^ 52).
    nia. }
  apply Z.pow_lt_mono_r_iff in H52; lia.
Qed.

Lemma gross_investment_sign (self : HoltCFROIModel) (a b : Z) (gi : value) :
  calculate_gross_investment self (VInt a) (VInt b)
    default_inflation_adjustment = Ok gi ->
  exists x, gi = VFloat x
    /\ B64.is_nan x = false
    /\ (a = b -> B64.is_zero x = true)
    /\ (a < b -> B64.signbit x = true /\ B64.is_zero x = false)
    /\ (b < a -> B64.signbit x = false /\ B64.is_zero x = false).
Proof.
  unfold calculate_gross_investment, default_inflation_adjustment.
  cbn [py_sub rbind py_mul]. unfold float_op. cbn [is_number andb to_float].
  destruct (B64.of_Z (a - b)) as [y|e] eqn:Ey; cbn [rbind]; [|discriminate].
  intros [= <-]. exists (B64.mul y B64.lit_1_0).
  split; [reflexivity|].
  pose proof (of_Z_sign _ _ Ey) as (Hn & Hf & Hpos & Hneg).
  destruct y as [s|s| |s m e]; try discriminate.
  - assert (a = b) as ->.
    { destruct (Z.lt_trichotomy (a - b) 0) as [H|[H|H]];
        [destruct (Hneg H) as [_ H']; discriminate
        | lia
        | destruct (Hpos H) as [_ H']; discriminate]. }
    repeat split; lia.
  - pose proof (of_Z_exponent _ _ _ _ Ey) as He.
    pose proof (mul_one_nonzero s m e He) as Hz.
    destruct (mul_sign (S754_finite s m e) B64.lit_1_0) as [Hn' Hs'];
      try reflexivity.
    split; [exact Hn'|]. split; [|split].
    + intros ->. rewrite Z.sub_diag in Ey. discriminate.
    + intros Hlt. destruct (Hneg ltac:(lia)) as [Hs _]. simpl in Hs.
      subst s. split; [rewrite Hs'; reflexivity | exact Hz].
    + intros Hlt. destruct (Hpos ltac:(lia)) as [Hs _]. simpl in Hs.
      subst s. split; [rewrite Hs'; reflexivity | exact Hz].
Qed.

Lemma py_le_zero_float (x : spec_float) :
  B64.is_nan x = false ->
  py_le (VFloat x) (VInt 0) = Ok (B64.is_zero x || B64.signbit x)
  /\ py_gt (VFloat x) (VInt 0)
     = Ok (negb (B64.is_zero x) && negb (B64.signbit x)).
Proof.
  intros Hn. unfold py_le, py_gt. cbn [py_compare rbind].
  rewrite compare_Z_zero.
  destruct x as [s|s| |s m e]; try discriminate; destruct s; split;
    reflexivity.
Qed.

(** X5: on int gross assets and accumulated depreciation, and the default
    inflation adjustment [1.0], the gross investment, when it is computed,
    is a float that is positive exactly when the gross assets exceed the
    accumulated depreciation, and [<= 0] exactly when they do not. *)
Theorem gross_investment_positive_iff (self : HoltCFROIModel) (a b : Z)
    (gi : value) :
  calculate_gross_investment self (VInt a) (VInt b)
    default_inflation_adjustment = Ok gi ->
  py_gt gi (VInt 0) = Ok (b <? a)
  /\ py_le gi (VInt 0) = Ok (a <=? b).
Proof.
  intros (x & -> & Hn & Heq & Hlt & Hgt)%gross_investment_sign.
  destruct (py_le_zero_float x Hn) as [-> ->].
  destruct (Z.lt_trichotomy a b) as [H|[H|H]].
  - destruct (Hlt H) as [-> ->].
    rewrite (proj2 (Z.ltb_ge b a)), (proj2 (Z.leb_le a b)) by lia.
    split; reflexivity.
  - rewrite (Heq H).
    rewrite (proj2 (Z.ltb_ge b a)), (proj2 (Z.leb_le a b)) by lia.
    split; reflexivity.
  - destruct (Hgt H) as [-> ->].
    rewrite (proj2 (Z.ltb_lt b a)), (proj2 (Z.leb_gt a b)) by lia.
    split; reflexivity.
Qed.

(** X6: a company whose int accumulated depreciation reaches its int
    gross assets, with no inflation adjustment given, never reaches the
    solver: [run_valuation] reports a [cfroi] of [0.0], whatever the other
    fields hold. *)
Theorem written_off_assets_no_solver (self : HoltCFROIModel)
    (company_data : gmap string value) (a b : Z) :
  company_data !! "gross_assets" = Some (VInt a) ->
  company_data !! "accumulated_depreciation" = Some (VInt b) ->
  company_data !! "inflation_adjustment" = None ->
  a <= b ->
  exists r t,
    run_valuation self company_data = (Ok r, t)
    /\ cfroi r = VFloat B64.zero
    /\ solver_calls t = [].
Proof.
  intros Hga Had Hinf Hab. apply degenerate_run. intros gi gcf al Hin.
  apply valuation_inputs_ok in Hin
    as (ga & ad & ni & dep & ie & re & Hga' & Had' & _ & _ & _ & _
        & Hgi & _ & Hal).
  rewrite Hga in Hga'. injection Hga' as <-.
  rewrite Had in Had'. injection Had' as <-.
  unfold get in Hgi. rewrite Hinf in Hgi. cbn [default] in Hgi.
  apply gross_investment_sign in Hgi as (x & -> & Hn & Heq & Hlt & _).
  assert (Hle : py_le (VFloat x) (VInt 0) = Ok true).
  { destruct (py_le_zero_float x Hn) as [-> _]. f_equal.
    destruct (Z.eq_dec a b) as [E|E].
    - rewrite (Heq E). reflexivity.
    - destruct (Hlt ltac:(lia)) as [-> _]. apply orb_true_r. }
  unfold degenerate. rewrite Hle.
  apply asset_life_number in Hal as [->|[y ->]].
  - reflexivity.
  - unfold py_le at 1. cbn [py_compare rbind].
    destruct (B64.compare_Z y 0) as [[]|]; reflexivity.
Qed.

(** *** Types and exceptions of the calculators *)

Lemma float_op_ok (f : spec_float -> spec_float -> result value)
    (a b v : value) :
  float_op f a b = Ok v -> is_number a = true /\ is_number b = true.
Proof.
  unfold float_op. destruct (is_number a), (is_number b); simpl;
    try discriminate; auto.
Qed.




(** *** The guard of [calculate_cfroi] *)

(** X8: the three tests of the guard are made from left to right and stop
    at the first true one: with an asset life [<= 0] the result is [0.0]
    whatever the two other arguments are, numbers or not; with a positive
    asset life and a gross investment [<= 0] it is [0.0] whatever the gross
    cash flow is. *)
Theorem guard_short_circuit (self : HoltCFROIModel)
    (gross_cash_flow gross_investment asset_life fade_rate : value) :
  (py_le asset_life (VInt 0) = Ok true ->
   calculate_cfroi self gross_cash_flow gross_investment asset_life fade_rate
   = (Ok (VFloat B64.zero), []))
  /\ (py_le asset_life (VInt 0) = Ok false ->
      py_le gross_investment (VInt 0) = Ok true ->
      calculate_cfroi self gross_cash_flow gross_investment asset_life
        fade_rate
      = (Ok (VFloat B64.zero), [])).
Proof.
  split.
  - intros Hl. rewrite calculate_cfroi_cases. unfold degenerate.
    rewrite Hl. reflexivity.
  - intros Hl Hi. rewrite calculate_cfroi_cases. unfold degenerate.
    rewrite Hl, Hi. reflexivity.
Qed.



(** X10: an asset life that is a NaN or an infinity passes the guard or
    not, but never reaches the solver: [int(asset_life)] raises inside
    the [try]. *)
Theorem non_finite_asset_life_no_solver (self : HoltCFROIModel)
    (gross_cash_flow gross_investment fade_rate : value) (x : spec_float) :
  B64.is_finite x = false ->
  solver_calls
    (snd (calculate_cfroi self gross_cash_flow gross_investment (VFloat x)
            fade_rate)) = []
  /\ (is_number gross_cash_flow = true ->
      is_number gross_investment = true ->
      fst (calculate_cfroi self gross_cash_flow gross_investment (VFloat x)
             fade_rate) = Ok (VFloat B64.zero)).
Proof.
  intros Hx. rewrite calculate_cfroi_cases.
  assert (Hb : exists e, build_cash_flows gross_cash_flow gross_investment
                           (VFloat x) fade_rate = Raise e).
  { unfold build_cash_flows.
    destruct (py_neg gross_investment); cbn [rbind]; [|eauto].
    destruct x; try discriminate; simpl; eauto. }
  destruct Hb as [e ->]. split.
  - destruct (degenerate _ _ _) as [[]|]; reflexivity.
  - intros Hc Hi.
    destruct (degenerate_number _ _ (VFloat x) Hc Hi eq_refl) as (b & -> & _).
    destruct b; reflexivity.
Qed.

(** *** The shape of the cash-flow list *)

Lemma project_length (gcf fade : value) (years : list Z) :
  forall acc l,
    project gcf fade years acc = Ok l ->
    exists flows, l = acc ++ flows /\ length flows = length years.
Proof.
  intros acc l. rewrite project_mapM.
  destruct (mapM _ years) as [flows|] eqn:E; cbn [rbind]; [|discriminate].
  intros [= <-]. exists flows. split; [reflexivity|].
  revert flows E. induction years as [|y ys IH]; intros flows; cbn [mapM].
  - intros [= <-]. reflexivity.
  - destruct (spec_projected_flow gcf fade y); cbn [rbind]; [|discriminate].
    destruct (mapM _ ys) as [fl|]; cbn [rbind]; [|discriminate].
    intros [= <-]. simpl. f_equal. apply IH. reflexivity.
Qed.

Lemma iadd_last_shape (l l' : list value) (v : value) :
  iadd_last l v = Ok l' ->
  length l' = length l
  /\ forall i, (S i < length l)%nat -> l' !! i = l !! i.
Proof.
  unfold iadd_last. destruct (length l) as [|n] eqn:En; [discriminate|].
  destruct (l !! n); [|discriminate].
  destruct (py_add _ v); cbn [rbind]; [|discriminate].
  intros [= <-]. split.
  - rewrite length_insert. exact En.
  - intros i Hi. apply list_lookup_insert_ne. lia.
Qed.

Lemma py_range_length (n : Z) : length (py_range n) = Z.to_nat n.
Proof. unfold py_range. rewrite length_map, length_seq. reflexivity. Qed.

(** X11: the list handed to the solver is never empty: it has
    [1 + int(asset_life)] elements ([1] when [int(asset_life)] is not
    positive), and when there is a projected year its first element is
    the outlay [-gross_investment], untouched by the salvage value. *)
Theorem cash_flows_shape
    (gross_cash_flow gross_investment asset_life fade_rate : value)
    (cash_flows : list value) :
  build_cash_flows gross_cash_flow gross_investment asset_life fade_rate
  = Ok cash_flows ->
  exists n outlay,
    py_int asset_life = Ok n
    /\ py_neg gross_investment = Ok outlay
    /\ length cash_flows = S (Z.to_nat n)
    /\ (0 < n -> cash_flows !! 0%nat = Some outlay).
Proof.
  unfold build_cash_flows.
  destruct (py_neg gross_investment) as [outlay|]; cbn [rbind];
    [|discriminate].
  destruct (py_int asset_life) as [n|]; cbn [rbind]; [|discriminate].
  destruct (project _ _ _ _) as [l|] eqn:Ep; cbn [rbind]; [|discriminate].
  destruct (py_mul gross_investment _) as [salvage|]; cbn [rbind];
    [|discriminate].
  intros [Hlen Hkeep]%iadd_last_shape.
  apply project_length in Ep as (flows & -> & Hfl).
  rewrite py_range_length in Hfl.
  exists n, outlay. repeat split.
  - rewrite Hlen. simpl. rewrite Hfl. reflexivity.
  - intros Hn. rewrite Hkeep; [reflexivity|]. simpl. lia.
Qed.

(** *** The fields of the record *)

(** X12: [run_valuation] reads nine fields and no other: two records that
    agree on them give the same result and the same trace; in particular
    adding or overwriting any other field changes nothing. *)
Theorem other_fields_ignored (self : HoltCFROIModel)
    (d1 d2 : gmap string value) :
  (forall k, In k read_fields -> d1 !! k = d2 !! k) ->
  run_valuation self d1 = run_valuation self d2.
Proof.
  intros H.
  unfold run_valuation, run_valuation_body, getitem, get.
  rewrite !(H "gross_assets"), !(H "accumulated_depreciation"),
    !(H "net_income"), !(H "depreciation"), !(H "interest_expense"),
    !(H "rent_expense"), !(H "inflation_adjustment"), !(H "fade_rate"),
    !(H "cost_of_capital") by (simpl; tauto).
  reflexivity.
Qed.

(** X13: leaving an optional field out is the same as giving it its
    default: [1.0] for the inflation adjustment, [0.04] for the fade rate,
    [0.08] for the cost of capital. *)
Theorem optional_field_defaults (self : HoltCFROIModel)
    (company_data : gmap string value) :
  (company_data !! "inflation_adjustment" = None ->
   run_valuation self
     (<["inflation_adjustment" := VFloat B64.lit_1_0]> company_data)
   = run_valuation self company_data)
  /\ (company_data !! "fade_rate" = None ->
      run_valuation self (<["fade_rate" := VFloat B64.lit_0_04]> company_data)
      = run_valuation self company_data)
  /\ (company_data !! "cost_of_capital" = None ->
      run_valuation self
        (<["cost_of_capital" := VFloat B64.lit_0_08]> company_data)
      = run_valuation self company_data).
Proof.
  repeat split; intros Hnone;
    unfold run_valuation, run_valuation_body, getitem, get;
    rewrite lookup_insert_eq, Hnone, !lookup_insert_ne by discriminate;
    reflexivity.
Qed.

(** *** The diagnostic of the fallback *)

(** X14: the line "Error in valuation calculation" is printed exactly
    when the [try] block of [run_valuation] raised, that is exactly when
    the all-zero record stands for a failure; it is then the last
    event. *)
Theorem fallback_diagnostic (self : HoltCFROIModel)
    (company_data : gmap string value) :
  ((exists e, In (Print "Error in valuation calculation: " e)
                 (snd (run_valuation self company_data)))
   <-> fails (run_valuation_body self company_data))
  /\ (forall e t,
        run_valuation_body self company_data = (Raise e, t) ->
        run_valuation self company_data
        = (Ok all_zero, t ++ [Print "Error in valuation calculation: " e])).
Proof.
  assert (Hbody : forall e,
             ~ In (Print "Error in valuation calculation: " e)
                  (snd (run_valuation_body self company_data))).
  { intros e Hin.
    destruct (run_valuation_body_trace self company_data)
      as [E|(gcf & gi & al & fade & E)]; rewrite E in Hin; [destruct Hin|].
    apply calculate_cfroi_trace in Hin as [[c Hc]|[e' He']]; discriminate. }
  rewrite run_valuation_cases. split; [split|].
  - intros [e Hin].
    destruct (run_valuation_body self company_data) as [[r|e'] t] eqn:E.
    + exfalso. apply (Hbody e). exact Hin.
    + exists e', t. reflexivity.
  - intros (e & t & E). rewrite E. exists e. simpl.
    apply in_or_app. right. left. reflexivity.
  - intros e t ->. reflexivity.
Qed.

(** *** The asset life and the calls of the solver *)

Lemma binary_normalize_nonneg (m e : Z) :
  0 <= m ->
  match binary_normalize B64.prec B64.emax m e false with
  | S754_zero s | S754_infinity s | S754_finite s _ _ => s = false
  | S754_nan => False
  end.
Proof.
  intros Hm. unfold binary_normalize.
  destruct m as [|p|p]; [reflexivity| |lia].
  unfold binary_round. destruct (shl_align p e _) as [mz ez].
  apply binary_round_aux_sign. lia.
Qed.

(** X15: on int gross assets [>= 0] and int depreciation [> 0] the asset
    life, when it is computed, is a float that is not a NaN and has its
    sign bit clear: it is never negative. *)
Theorem asset_life_nonnegative (self : HoltCFROIModel) (a b : Z) (v : value) :
  0 <= a -> 0 < b ->
  calculate_asset_life self (VInt a) (VInt b) = Ok v ->
  exists x, v = VFloat x
    /\ B64.is_nan x = false
    /\ B64.signbit x = false.
Proof.
  intros Ha Hb. unfold calculate_asset_life, py_gt. cbn [py_compare rbind].
  rewrite (proj2 (Z.compare_gt_iff b 0)) by lia. cbn [py_truediv].
  unfold B64.div_Z.
  rewrite (proj2 (Z.eqb_neq b 0)), (proj2 (Z.ltb_ge a 0)),
    (proj2 (Z.ltb_ge b 0)) by lia.
  cbn [xorb]. destruct (a =? 0).
  - intros [= <-]. exists (S754_zero false). repeat split.
  - cbn [cond_Zopp].
    match goal with
    | |- context [binary_normalize _ _ ?m ?e false] =>
        assert (Hm : 0 <= m);
        [|pose proof (binary_normalize_nonneg m e Hm) as Hs;
          destruct (binary_normalize B64.prec B64.emax m e false)
            as [s|s| |s mm ee]]
    end.
    + assert (0 <= Z.abs a * 2 ^ Z.max 0 (Z.log2 (Z.abs b) - Z.log2 (Z.abs a)
                                            + 56) / Z.abs b).
      { apply Z.div_pos; [|lia].
        apply Z.mul_nonneg_nonneg; [lia|]. apply Z.pow_nonneg. lia. }
      destruct (_ =? 0); lia.
    + cbn [rbind]. intros [= <-]. subst s. eexists. repeat split.
    + discriminate.
    + destruct Hs.
    + cbn [rbind]. intros [= <-]. subst s. eexists. repeat split.
Qed.

Lemma py_or_false (a b : result bool) :
  py_or a b = Ok false -> a = Ok false /\ b = Ok false.
Proof.
  unfold py_or. destruct a as [[]|]; simpl; try discriminate. auto.
Qed.

(** X16: the solver is called only past the guard and past the
    construction of the list: the asset life is then strictly positive
    and finite ([int(asset_life)] is defined and not negative, possibly
    zero), the gross investment and the gross cash flow are not [<= 0],
    and the list the solver received is the one built. *)
Theorem solver_call_requires (self : HoltCFROIModel)
    (gross_cash_flow gross_investment asset_life fade_rate : value)
    (cash_flows : list value) :
  In cash_flows
     (solver_calls
        (snd (calculate_cfroi self gross_cash_flow gross_investment
                asset_life fade_rate))) ->
  py_gt asset_life (VInt 0) = Ok true
  /\ py_le gross_investment (VInt 0) = Ok false
  /\ py_le gross_cash_flow (VInt 0) = Ok false
  /\ (exists n, py_int asset_life = Ok n /\ 0 <= n)
  /\ build_cash_flows gross_cash_flow gross_investment asset_life fade_rate
     = Ok cash_flows.
Proof.
  rewrite calculate_cfroi_cases.
  destruct (degenerate gross_cash_flow gross_investment asset_life)
    as [[]|] eqn:Ed; try (intros []).
  destruct (build_cash_flows _ _ _ _) as [cfs|] eqn:Eb;
    [|intros []].
  intros Hin.
  assert (cash_flows = cfs) as ->.
  { cbn [snd] in Hin. destruct (irr cfs); simpl in Hin;
      destruct Hin as [H|[]]; congruence. }
  apply py_or_false in Ed as [[Hl Hi]%py_or_false Hc].
  assert (Hn : exists n, py_int asset_life = Ok n).
  { unfold build_cash_flows in Eb.
    destruct (py_neg gross_investment); cbn [rbind] in Eb; [|discriminate].
    destruct (py_int asset_life) as [n|]; [eauto|discriminate]. }
  destruct Hn as [n Hn].
  assert (Hpos : py_gt asset_life (VInt 0) = Ok true /\ 0 <= n).
  { destruct asset_life as [k|x|s|]; try discriminate.
    - simpl in Hn. injection Hn as <-.
      unfold py_le, py_gt in *. cbn [py_compare rbind] in *.
      destruct (k ?= 0) eqn:E; try discriminate.
      apply Z.compare_gt_iff in E. split; [reflexivity|lia].
    - unfold py_le, py_gt in *. cbn [py_compare rbind] in *.
      rewrite compare_Z_zero in *.
      destruct x as [s|s| |s m e]; try discriminate;
        destruct s; try discriminate.
      split; [reflexivity|].
      simpl in Hn. injection Hn as <-. apply Z.shiftl_nonneg. lia. }
  destruct Hpos as [Hgt Hn0].
  repeat split; eauto.
Qed.

End Model.

(** ** The theorems at concrete inputs *)

Lemma literals_nearest :
  B64.nearest 6305039478318694 (-53) 7 10 = true
  /\ B64.nearest 7205759403792794 (-56) 1 10 = true
  /\ B64.nearest 5764607523034235 (-57) 4 100 = true
  /\ B64.nearest 5764607523034235 (-56) 8 100 = true
  /\ B64.nearest 5764607523034235 (-58) 2 100 = true.
Proof. vm_compute. repeat split. Qed.



Lemma degenerate_input_short_circuit_witness :
  is_number (VInt 100) = true
  /\ is_number (VInt 1000) = true
  /\ is_number (VInt 0) = true
  /\ (py_le (VInt 0) (VInt 0) = Ok true \/
      py_le (VInt 1000) (VInt 0) = Ok true \/
      py_le (VInt 100) (VInt 0) = Ok true)
  /\ (calculate_cfroi (const_irr (Ok B64.lit_0_1)) iter_pow no_int_of_str
        init (VInt 100) (VInt 1000) (VInt 0) (VFloat B64.lit_0_04)
      = (Ok (VFloat B64.zero), [])
      /\ solver_calls
           (snd (calculate_cfroi (const_irr (Ok B64.lit_0_1)) iter_pow
                   no_int_of_str init (VInt 100) (VInt 1000) (VInt 0)
                   (VFloat B64.lit_0_04))) = []).
Proof.
  split; [reflexivity|]. split; [reflexivity|]. split; [reflexivity|].
  split; [left; reflexivity|].
  apply (degenerate_input_short_circuit (const_irr (Ok B64.lit_0_1)) iter_pow
           no_int_of_str init);
    [reflexivity | reflexivity | reflexivity | left; reflexivity].
Defined.

Lemma solver_failure_policy_witness :
  degenerate (VInt 100) (VInt 1000) (VInt 2) = Ok false
  /\ build_cash_flows iter_pow no_int_of_str (VInt 100) (VInt 1000) (VInt 2)
       (VInt 0)
     = Ok [VInt (-1000); VInt 100;
           VFloat (S754_finite false 7036874417766400 (-45))]
  /\ (fst (calculate_cfroi
             (const_irr (Ok (S754_finite true 7205759403792794 (-56))))
             iter_pow no_int_of_str init (VInt 100) (VInt 1000) (VInt 2)
             (VInt 0))
      = Ok (VFloat
              match
                const_irr (Ok (S754_finite true 7205759403792794 (-56)))
                  [VInt (-1000); VInt 100;
                   VFloat (S754_finite false 7036874417766400 (-45))]
              with
              | Raise _ => B64.zero
              | Ok rate =>
                  if B64.is_nan rate then B64.zero
                  else if B64.ltb rate B64.zero then B64.zero
                  else rate
              end)
      /\ solver_calls
           (snd (calculate_cfroi
                   (const_irr (Ok (S754_finite true 7205759403792794 (-56))))
                   iter_pow no_int_of_str init (VInt 100) (VInt 1000)
                   (VInt 2) (VInt 0)))
         = [[VInt (-1000); VInt 100;
             VFloat (S754_finite false 7036874417766400 (-45))]]).
Proof.
  split; [reflexivity|]. split; [reflexivity|].
  apply (solver_failure_policy
           (const_irr (Ok (S754_finite true 7205759403792794 (-56))))
           iter_pow no_int_of_str init); reflexivity.
Defined.

Lemma cfroi_nonnegative_not_nan_witness :
  is_number (VInt 100) = true
  /\ is_number (VInt 1000) = true
  /\ is_number (VInt 2) = true
  /\ exists rate,
       fst (calculate_cfroi (const_irr (Ok B64.lit_0_1)) iter_pow
              no_int_of_str init (VInt 100) (VInt 1000) (VInt 2) (VInt 0))
       = Ok (VFloat rate)
       /\ B64.is_nan rate = false
       /\ B64.leb B64.zero rate = true
       /\ (B64.is_finite rate = true
           \/ (rate = S754_infinity false
               /\ exists cash_flows,
                    build_cash_flows iter_pow no_int_of_str (VInt 100)
                      (VInt 1000) (VInt 2) (VInt 0) = Ok cash_flows
                    /\ const_irr (Ok B64.lit_0_1) cash_flows
                       = Ok (S754_infinity false)))
       /\ (solver_contract (const_irr (Ok B64.lit_0_1)) ->
           B64.is_finite rate = true).
Proof.
  split; [reflexivity|]. split; [reflexivity|]. split; [reflexivity|].
  apply (cfroi_nonnegative_not_nan (const_irr (Ok B64.lit_0_1)) iter_pow
           no_int_of_str init); reflexivity.
Defined.

(** C4 as it is stated fails when the rate of return is beyond the range
    of binary64: on a gross cash flow of [2^30] against a gross investment
    of [2^-1000] over one year, the stream is [[-2^-1000; 2^30]], whose
    rate of return is about [2^1030]; the two-flow solver answers [+inf]
    and [calculate_cfroi] returns it. *)
Lemma cfroi_nonnegative_not_nan_counterexample :
  let gcf := VFloat (S754_finite false 4503599627370496 (-22)) in
  let gi := VFloat (S754_finite false 4503599627370496 (-1052)) in
  is_number gcf = true
  /\ is_number gi = true
  /\ valid_binary B64.prec B64.emax
       (S754_finite false 4503599627370496 (-22)) = true
  /\ valid_binary B64.prec B64.emax
       (S754_finite false 4503599627370496 (-1052)) = true
  /\ py_gt gcf (VInt 0) = Ok true
  /\ py_gt gi (VInt 0) = Ok true
  /\ build_cash_flows iter_pow no_int_of_str gcf gi (VInt 1)
       default_fade_rate
     = Ok [VFloat (S754_finite true 4503599627370496 (-1052)); gcf]
  /\ two_flow_irr [VFloat (S754_finite true 4503599627370496 (-1052)); gcf]
     = Ok (S754_infinity false)
  /\ calculate_cfroi two_flow_irr iter_pow no_int_of_str init gcf gi (VInt 1)
       default_fade_rate
     = (Ok (VFloat (S754_infinity false)),
        [IrrCall [VFloat (S754_finite true 4503599627370496 (-1052)); gcf]])
  /\ B64.is_finite (S754_infinity false) = false.
Proof. intros gcf gi. repeat split. Qed.

Lemma run_valuation_total_witness :
  (exists k, In k required_fields
             /\ (delete "depreciation" company_data : gmap string value) !! k
                = None)
  /\ fst (run_valuation (const_irr (Ok B64.lit_0_1)) iter_pow no_int_of_str
            init (delete "depreciation" company_data))
     = Ok all_zero.
Proof.
  assert (H : exists k, In k required_fields
                /\ (delete "depreciation" company_data : gmap string value)
                     !! k = None).
  { exists "depreciation". split; [simpl; tauto | reflexivity]. }
  split; [exact H|].
  apply (run_valuation_total (const_irr (Ok B64.lit_0_1)) iter_pow
           no_int_of_str init (delete "depreciation" company_data)).
  exact H.
Defined.


Lemma economic_profit_formula_witness :
  is_number (VFloat (S754_finite false 7205759403792794 (-56))) = true
  /\ is_number (VFloat (S754_finite false 5764607523034235 (-56))) = true
  /\ calculate_economic_profit init
       (VFloat (S754_finite false 7205759403792794 (-56)))
       (VFloat (S754_finite false 5764607523034235 (-56))) (VInt 8000000)
     = Ok (VFloat (S754_finite false 5497558138880001 (-35)))
  /\ B64.compare_Z (S754_finite false 5497558138880001 (-35)) 160000
     = Some Gt
  /\ B64.compare_Z (S754_finite false 5497558138880001 (-35)) 160001
     = Some Lt
  /\ calculate_economic_profit init (VInt 3) (VInt 1) (VInt 5)
     = Ok (VInt 10)
  /\ is_number (VStr "x") = false
  /\ calculate_economic_profit init (VStr "x")
       (VFloat (S754_finite false 5764607523034235 (-56))) (VInt 1)
     = Ok (VFloat (S754_zero false)).
Proof.
  pose proof (economic_profit_formula init
                (VFloat (S754_finite false 7205759403792794 (-56)))
                (VFloat (S754_finite false 5764607523034235 (-56)))
                (VInt 8000000)) as (Hnum & _ & Hint & _).
  pose proof (economic_profit_formula init (VStr "x")
                (VFloat (S754_finite false 5764607523034235 (-56)))
                (VInt 1)) as (_ & Hguard & _).
  split; [reflexivity|]. split; [reflexivity|].
  split; [exact (eq_trans (Hnum eq_refl eq_refl) eq_refl)|].
  split; [reflexivity|]. split; [reflexivity|].
  split; [exact (Hint 3 1 5)|]. split; [reflexivity|].
  exact (Hguard (or_introl eq_refl)).
Defined.

Lemma degenerate_record_profit_witness :
  let d : gmap string value := <["depreciation" := VInt 0]> company_data in
  let d' : gmap string value :=
    <["cost_of_capital" :=
        VFloat (S754_finite true 5764607523034235 (-56))]> d in
  let gi := VFloat (S754_finite false 8589934592000000 (-30)) in
  let gcf := VFloat (S754_finite false 8203387535360000 (-32)) in
  let ep := VFloat (S754_finite true 5497558138880000 (-33)) in
  let ep' := VFloat (S754_finite false 5497558138880000 (-33)) in
  d !! "gross_assets" = Some (VInt 10000000)
  /\ d !! "accumulated_depreciation" = Some (VInt 2000000)
  /\ d !! "net_income" = Some (VInt 1500000)
  /\ d !! "depreciation" = Some (VInt 0)
  /\ d !! "interest_expense" = Some (VInt 300000)
  /\ d !! "rent_expense" = Some (VInt 200000)
  /\ calculate_gross_investment init (VInt 10000000) (VInt 2000000)
       (get d "inflation_adjustment" default_inflation_adjustment) = Ok gi
  /\ calculate_gross_cash_flow init (VInt 1500000) (VInt 0) (VInt 300000)
       (VInt 200000) = Ok gcf
  /\ calculate_asset_life init (VInt 10000000) (VInt 0) = Ok (VInt 0)
  /\ degenerate gcf gi (VInt 0) = Ok true
  /\ py_gt gi (VInt 0) = Ok true
  /\ calculate_economic_profit init (VFloat B64.zero)
       (get d "cost_of_capital" default_cost_of_capital) gi = Ok ep
  /\ (let coc := get d "cost_of_capital" default_cost_of_capital in
      let r := {| cfroi := VFloat B64.zero;
                  economic_profit := ep;
                  gross_investment := gi;
                  gross_cash_flow := gcf;
                  asset_life := VInt 0 |} in
      run_valuation (const_irr (Ok B64.lit_0_1)) iter_pow no_int_of_str init d
      = (Ok r, [])
      /\ r <> all_zero
      /\ (is_number coc = true ->
          spec_economic_profit (VFloat B64.zero) coc gi = Ok ep)
      /\ (py_gt coc (VInt 0) = Ok true ->
          exists x, ep = VFloat x
            /\ B64.is_nan x = false
            /\ B64.ltb B64.zero x = false
            /\ (B64.is_zero x = false -> B64.ltb x B64.zero = true))
      /\ (py_le coc (VInt 0) = Ok true ->
          exists x, ep = VFloat x
            /\ B64.ltb x B64.zero = false
            /\ (B64.is_nan x = false -> B64.signbit x = false)))
  /\ py_le (get d' "cost_of_capital" default_cost_of_capital) (VInt 0)
     = Ok true
  /\ calculate_economic_profit init (VFloat B64.zero)
       (get d' "cost_of_capital" default_cost_of_capital) gi = Ok ep'
  /\ run_valuation (const_irr (Ok B64.lit_0_1)) iter_pow no_int_of_str init d'
     = (Ok {| cfroi := VFloat B64.zero;
              economic_profit := ep';
              gross_investment := gi;
              gross_cash_flow := gcf;
              asset_life := VInt 0 |}, [])
  /\ (exists x, ep' = VFloat x
        /\ B64.ltb x B64.zero = false
        /\ (B64.is_nan x = false -> B64.signbit x = false))
  /\ py_compare ep' (VInt 640000) = Ok (Some Eq).
Proof.
  intros d d' gi gcf ep ep'.
  do 12 (split; [reflexivity|]).
  split.
  { apply (degenerate_record_profit (const_irr (Ok B64.lit_0_1)) iter_pow
             no_int_of_str init d (VInt 10000000) (VInt 2000000)
             (VInt 1500000) (VInt 0) (VInt 300000) (VInt 200000) gi gcf
             (VInt 0) ep); reflexivity. }
  pose proof (degenerate_record_profit (const_irr (Ok B64.lit_0_1)) iter_pow
                no_int_of_str init d' (VInt 10000000) (VInt 2000000)
                (VInt 1500000) (VInt 0) (VInt 300000) (VInt 200000) gi gcf
                (VInt 0) ep' eq_refl eq_refl eq_refl eq_refl eq_refl eq_refl
                eq_refl eq_refl eq_refl eq_refl eq_refl eq_refl)
    as (Hrun & _ & _ & _ & Hle).
  split; [reflexivity|]. split; [reflexivity|].
  split; [exact Hrun|]. split; [exact (Hle eq_refl)|reflexivity].
Defined.

(** C9 as it is stated fails on the idle company: every required field is
    present, the degenerate test fires on a zero asset life, the gross
    investment is positive, and yet the economic profit [(0.0 - 0) * 8e6]
    is [0.0], not a negative number, and the gross cash flow is zero. *)
Lemma degenerate_record_profit_counterexample :
  let run := run_valuation (const_irr (Ok B64.lit_0_1)) iter_pow
               no_int_of_str init idle_company_data in
  let gi := VFloat (S754_finite false 8589934592000000 (-30)) in
  (forall k, In k required_fields -> is_Some (idle_company_data !! k))
  /\ calculate_gross_investment init (VInt 10000000) (VInt 2000000)
       default_inflation_adjustment = Ok gi
  /\ calculate_gross_cash_flow init (VInt 0) (VInt 0) (VInt 0) (VInt 0)
     = Ok (VFloat B64.zero)
  /\ calculate_asset_life init (VInt 10000000) (VInt 0) = Ok (VInt 0)
  /\ degenerate (VFloat B64.zero) gi (VInt 0) = Ok true
  /\ py_gt gi (VInt 0) = Ok true
  /\ run = (Ok {| cfroi := VFloat B64.zero;
                  economic_profit := VFloat B64.zero;
                  gross_investment := gi;
                  gross_cash_flow := VFloat B64.zero;
                  asset_life := VInt 0 |}, [])
  /\ spec_economic_profit (VFloat B64.zero) (VInt 0) gi = Ok (VFloat B64.zero)
  /\ ~ (exists r x, fst run = Ok r /\ economic_profit r = VFloat x
                    /\ B64.ltb x B64.zero = true)
  /\ ~ (exists r, fst run = Ok r
                  /\ py_compare (gross_cash_flow r) (VInt 0) <> Ok (Some Eq)).
Proof.
  intros run gi.
  split.
  { intros k Hk. simpl in Hk.
    destruct Hk as [<-|[<-|[<-|[<-|[<-|[<-|[]]]]]]]; vm_compute; eauto. }
  do 7 (split; [reflexivity|]).
  split.
  - intros (r & x & Hr & Hx & Hlt). vm_compute in Hr.
    injection Hr as <-. simpl in Hx. injection Hx as <-. discriminate Hlt.
  - intros (r & Hr & Hne). vm_compute in Hr.
    injection Hr as <-. apply Hne. reflexivity.
Qed.

(** Two more outcomes of a degenerate run with a positive cost of capital:
    a cost of capital too large for a float makes [0.0 - cost_of_capital]
    raise, and the record is the all-zero one; a product below the
    smallest float is the zero [-0.0]. *)
Example degenerate_record_overflow :
  run_valuation (const_irr (Ok B64.lit_0_1)) iter_pow no_int_of_str init
    (<["cost_of_capital" := VInt (10 ^ 400)]>
       (<["depreciation" := VInt 0]> company_data))
  = (Ok all_zero, [Print "Error in valuation calculation: " OverflowError]).
Proof. vm_compute. reflexivity. Qed.

Example economic_profit_underflow :
  py_gt (VFloat (S754_finite false 4503599627370496 (-652))) (VInt 0)
  = Ok true
  /\ calculate_economic_profit init (VFloat B64.zero)
       (VFloat (S754_finite false 4503599627370496 (-652)))
       (VFloat (S754_finite false 4503599627370496 (-652)))
     = Ok (VFloat (S754_zero true)).
Proof. split; reflexivity. Qed.

(** ** The examples of the specification, in binary64 *)

Example gross_investment_example :
  calculate_gross_investment init (VInt 10000000) (VInt 2000000)
    default_inflation_adjustment
  = Ok (VFloat (S754_finite false 8589934592000000 (-30)))
  /\ py_compare (VFloat (S754_finite false 8589934592000000 (-30)))
       (VInt 8000000) = Ok (Some Eq).
Proof. split; reflexivity. Qed.

Example asset_life_examples :
  (exists x, calculate_asset_life init (VInt 10000000) (VInt 500000)
             = Ok (VFloat x)
             /\ B64.compare_Z x 20 = Some Eq)
  /\ calculate_asset_life init (VInt 10000000) (VInt 0) = Ok (VInt 0)
  /\ calculate_asset_life init (VInt 10000000) (VFloat (S754_zero true))
     = Ok (VInt 0)
  /\ calculate_asset_life init (VInt 10000000) (VFloat S754_nan)
     = Ok (VInt 0).
Proof.
  split; [eexists; split; vm_compute; reflexivity|]. repeat split.
Qed.

(** [(0.10 - 0.08) * 8000000] is [160000 + 2^-35] in binary64: the
    difference of the two literals is not the literal [0.02]. *)
Example economic_profit_examples :
  calculate_economic_profit init (VStr "x") (VFloat B64.lit_0_08) (VInt 1)
  = Ok (VFloat B64.zero)
  /\ calculate_economic_profit init (VFloat B64.lit_0_1)
       (VFloat B64.lit_0_08) (VInt 8000000)
     = Ok (VFloat (S754_finite false 5497558138880001 (-35)))
  /\ 5497558138880001 = 160000 * 2 ^ 35 + 1.
Proof. repeat split. Qed.

(** The run of lines 130 to 145 of the source, with a solver that answers
    10%: the intermediate quantities, and the 21 cash flows the solver
    receives. *)
Example run_valuation_example :
  exists r cash_flows,
    run_valuation (const_irr (Ok B64.lit_0_1)) iter_pow no_int_of_str init
      company_data = (Ok r, [IrrCall cash_flows])
    /\ py_compare (gross_investment r) (VInt 8000000) = Ok (Some Eq)
    /\ py_compare (gross_cash_flow r) (VInt 2410000) = Ok (Some Eq)
    /\ py_compare (asset_life r) (VInt 20) = Ok (Some Eq)
    /\ cfroi r = VFloat B64.lit_0_1
    /\ length cash_flows = 21%nat
    /\ (exists outlay, cash_flows !! 0%nat = Some outlay
                       /\ py_compare outlay (VInt (-8000000)) = Ok (Some Eq))
    /\ (exists first, cash_flows !! 1%nat = Some first
                      /\ py_compare first (VInt 2410000) = Ok (Some Eq)).
Proof.
  eexists. eexists. split; [vm_compute; reflexivity|].
  repeat split; try reflexivity; eexists; split; reflexivity.
Qed.

(** A failure outside the reach of the degenerate test: an infinite asset
    life passes the test, [int(...)] raises, and [calculate_cfroi] answers
    [0.0] without calling the solver. *)
Example infinite_asset_life :
  calculate_cfroi (const_irr (Ok B64.lit_0_1)) iter_pow no_int_of_str init
    (VInt 100) (VInt 1000) (VFloat (S754_infinity false))
    (VFloat B64.lit_0_04)
  = (Ok (VFloat B64.zero), [Print "Error calculating CFROI: " OverflowError]).
Proof. reflexivity. Qed.

(** An asset life below one year: no projected cash flow, the salvage
    value lands on the outlay. *)
Example short_asset_life :
  build_cash_flows iter_pow no_int_of_str (VInt 100) (VInt 1000)
    (VFloat (S754_finite false 4503599627370496 (-53))) (VFloat B64.lit_0_04)
  = Ok [VFloat (S754_finite true 7916483719987200 (-43))]
  /\ B64.compare_Z (S754_finite true 7916483719987200 (-43)) (-900) = Some Eq.
Proof. split; reflexivity. Qed.

(** ** The further properties at concrete inputs *)

Lemma valuation_record_consistent_witness :
  let d : gmap string value := <["depreciation" := VInt 0]> company_data in
  let r := {| cfroi := VFloat B64.zero;
              economic_profit :=
                VFloat (S754_finite true 5497558138880000 (-33));
              gross_investment :=
                VFloat (S754_finite false 8589934592000000 (-30));
              gross_cash_flow :=
                VFloat (S754_finite false 8203387535360000 (-32));
              asset_life := VInt 0 |} in
  run_valuation (const_irr (Ok B64.lit_0_1)) iter_pow no_int_of_str init d
  = (Ok r, [])
  /\ (r = all_zero
      \/ (calculate_economic_profit init (cfroi r)
            (get d "cost_of_capital" default_cost_of_capital)
            (gross_investment r) = Ok (economic_profit r)
          /\ calculate_cfroi (const_irr (Ok B64.lit_0_1)) iter_pow
               no_int_of_str init (gross_cash_flow r) (gross_investment r)
               (asset_life r) (get d "fade_rate" default_fade_rate)
             = (Ok (cfroi r), []))).
Proof.
  intros d r. split; [reflexivity|].
  apply (valuation_record_consistent (const_irr (Ok B64.lit_0_1)) iter_pow
           no_int_of_str init d r []).
  reflexivity.
Defined.

Lemma no_depreciation_no_solver_witness :
  let d : gmap string value := <["depreciation" := VInt 0]> company_data in
  d !! "depreciation" = Some (VInt 0)
  /\ py_gt (VInt 0) (VInt 0) = Ok false
  /\ exists r t,
       run_valuation (const_irr (Ok B64.lit_0_1)) iter_pow no_int_of_str
         init d = (Ok r, t)
       /\ cfroi r = VFloat B64.zero
       /\ solver_calls t = [].
Proof.
  intros d. split; [reflexivity|]. split; [reflexivity|].
  apply (no_depreciation_no_solver (const_irr (Ok B64.lit_0_1)) iter_pow
           no_int_of_str init d (VInt 0)); reflexivity.
Defined.

Lemma gross_investment_positive_iff_witness :
  let gi := VFloat (S754_finite false 8589934592000000 (-30)) in
  calculate_gross_investment init (VInt 10000000) (VInt 2000000)
    default_inflation_adjustment = Ok gi
  /\ py_gt gi (VInt 0) = Ok (2000000 <? 10000000)
  /\ py_le gi (VInt 0) = Ok (10000000 <=? 2000000).
Proof.
  intros gi. split; [reflexivity|].
  apply (gross_investment_positive_iff init 10000000 2000000 gi).
  reflexivity.
Defined.

Lemma written_off_assets_no_solver_witness :
  let d : gmap string value :=
    <["accumulated_depreciation" := VInt 10000000]> company_data in
  d !! "gross_assets" = Some (VInt 10000000)
  /\ d !! "accumulated_depreciation" = Some (VInt 10000000)
  /\ d !! "inflation_adjustment" = None
  /\ 10000000 <= 10000000
  /\ exists r t,
       run_valuation (const_irr (Ok B64.lit_0_1)) iter_pow no_int_of_str
         init d = (Ok r, t)
       /\ cfroi r = VFloat B64.zero
       /\ solver_calls t = [].
Proof.
  intros d. split; [reflexivity|]. split; [reflexivity|].
  split; [reflexivity|]. split; [lia|].
  apply (written_off_assets_no_solver (const_irr (Ok B64.lit_0_1)) iter_pow
           no_int_of_str init d 10000000 10000000);
    [reflexivity | reflexivity | reflexivity | lia].
Defined.


Lemma guard_short_circuit_witness :
  py_le (VInt 0) (VInt 0) = Ok true
  /\ calculate_cfroi (const_irr (Ok B64.lit_0_1)) iter_pow no_int_of_str init
       VNone (VStr "x") (VInt 0) VNone
     = (Ok (VFloat B64.zero), []).
Proof.
  split; [reflexivity|].
  apply (proj1 (guard_short_circuit (const_irr (Ok B64.lit_0_1)) iter_pow
                  no_int_of_str init VNone (VStr "x") (VInt 0) VNone)).
  reflexivity.
Defined.


Lemma non_finite_asset_life_no_solver_witness :
  B64.is_finite S754_nan = false
  /\ (solver_calls
        (snd (calculate_cfroi (const_irr (Ok B64.lit_0_1)) iter_pow
                no_int_of_str init (VInt 100) (VInt 1000) (VFloat S754_nan)
                default_fade_rate)) = []
      /\ (is_number (VInt 100) = true ->
          is_number (VInt 1000) = true ->
          fst (calculate_cfroi (const_irr (Ok B64.lit_0_1)) iter_pow
                 no_int_of_str init (VInt 100) (VInt 1000) (VFloat S754_nan)
                 default_fade_rate) = Ok (VFloat B64.zero))).
Proof.
  split; [reflexivity|].
  apply (non_finite_asset_life_no_solver (const_irr (Ok B64.lit_0_1))
           iter_pow no_int_of_str init (VInt 100) (VInt 1000)
           default_fade_rate S754_nan).
  reflexivity.
Defined.

Lemma cash_flows_shape_witness :
  let cfs := [VInt (-1000); VInt 100;
              VFloat (S754_finite false 7036874417766400 (-45))] in
  build_cash_flows iter_pow no_int_of_str (VInt 100) (VInt 1000) (VInt 2)
    (VInt 0) = Ok cfs
  /\ exists n outlay,
       py_int no_int_of_str (VInt 2) = Ok n
       /\ py_neg (VInt 1000) = Ok outlay
       /\ length cfs = S (Z.to_nat n)
       /\ (0 < n -> cfs !! 0%nat = Some outlay).
Proof.
  intros cfs. split; [reflexivity|].
  apply (cash_flows_shape iter_pow no_int_of_str (VInt 100) (VInt 1000)
           (VInt 2) (VInt 0) cfs).
  reflexivity.
Defined.

Lemma other_fields_ignored_witness :
  let d2 : gmap string value := <["ticker" := VStr "ACME"]> company_data in
  (forall k, In k read_fields -> company_data !! k = d2 !! k)
  /\ run_valuation (const_irr (Ok B64.lit_0_1)) iter_pow no_int_of_str init
       company_data
     = run_valuation (const_irr (Ok B64.lit_0_1)) iter_pow no_int_of_str init
         d2.
Proof.
  intros d2.
  assert (H : forall k, In k read_fields -> company_data !! k = d2 !! k).
  { intros k Hk. simpl in Hk.
    destruct Hk as [<-|[<-|[<-|[<-|[<-|[<-|[<-|[<-|[<-|[]]]]]]]]]];
      reflexivity. }
  split; [exact H|].
  apply (other_fields_ignored (const_irr (Ok B64.lit_0_1)) iter_pow
           no_int_of_str init company_data d2 H).
Defined.

Lemma optional_field_defaults_witness :
  company_data !! "inflation_adjustment" = None
  /\ run_valuation (const_irr (Ok B64.lit_0_1)) iter_pow no_int_of_str init
       (<["inflation_adjustment" := VFloat B64.lit_1_0]> company_data)
     = run_valuation (const_irr (Ok B64.lit_0_1)) iter_pow no_int_of_str init
         company_data.
Proof.
  split; [reflexivity|].
  apply (proj1 (optional_field_defaults (const_irr (Ok B64.lit_0_1))
                  iter_pow no_int_of_str init company_data)).
  reflexivity.
Defined.

Lemma fallback_diagnostic_witness :
  let d : gmap string value := delete "depreciation" company_data in
  run_valuation_body (const_irr (Ok B64.lit_0_1)) iter_pow no_int_of_str
    init d = (Raise (KeyError "depreciation"), [])
  /\ run_valuation (const_irr (Ok B64.lit_0_1)) iter_pow no_int_of_str init d
     = (Ok all_zero,
        [] ++ [Print "Error in valuation calculation: "
                 (KeyError "depreciation")]).
Proof.
  intros d. split; [reflexivity|].
  apply (proj2 (fallback_diagnostic (const_irr (Ok B64.lit_0_1)) iter_pow
                  no_int_of_str init d)).
  reflexivity.
Defined.

Lemma asset_life_nonnegative_witness :
  0 <= 10000000
  /\ 0 < 500000
  /\ calculate_asset_life init (VInt 10000000) (VInt 500000)
     = Ok (VFloat (S754_finite false 5629499534213120 (-48)))
  /\ exists x,
       VFloat (S754_finite false 5629499534213120 (-48)) = VFloat x
       /\ B64.is_nan x = false
       /\ B64.signbit x = false.
Proof.
  split; [lia|]. split; [lia|]. split; [reflexivity|].
  apply (asset_life_nonnegative init 10000000 500000
           (VFloat (S754_finite false 5629499534213120 (-48))));
    [lia | lia | reflexivity].
Defined.

Lemma solver_call_requires_witness :
  let cfs := [VInt (-1000); VInt 100;
              VFloat (S754_finite false 7036874417766400 (-45))] in
  In cfs
     (solver_calls
        (snd (calculate_cfroi (const_irr (Ok B64.lit_0_1)) iter_pow
                no_int_of_str init (VInt 100) (VInt 1000) (VInt 2)
                (VInt 0))))
  /\ (py_gt (VInt 2) (VInt 0) = Ok true
      /\ py_le (VInt 1000) (VInt 0) = Ok false
      /\ py_le (VInt 100) (VInt 0) = Ok false
      /\ (exists n, py_int no_int_of_str (VInt 2) = Ok n /\ 0 <= n)
      /\ build_cash_flows iter_pow no_int_of_str (VInt 100) (VInt 1000)
           (VInt 2) (VInt 0) = Ok cfs).
Proof.
  intros cfs.
  assert (H : In cfs
                (solver_calls
                   (snd (calculate_cfroi (const_irr (Ok B64.lit_0_1)) iter_pow
                           no_int_of_str init (VInt 100) (VInt 1000) (VInt 2)
                           (VInt 0))))).
  { left. reflexivity. }
  split; [exact H|].
  apply (solver_call_requires (const_irr (Ok B64.lit_0_1)) iter_pow
           no_int_of_str init (VInt 100) (VInt 1000) (VInt 2) (VInt 0) cfs H).
Defined.
